(** * X402FacilitatorServer: a shallow embedding of verify / settle

    Source: src/src/facilitator/X402FacilitatorServer.ts, class
    [X402FacilitatorServer] (lines 1-405).

    Modelling choices.
    - JSON values read with strict equality ([!==]) are [jsval]; numbers are
      integers (NaN and fractions are not represented).  Fields used in
      arithmetic ([validBefore], [maxTimeoutSeconds], [lastValidBlockHeight])
      are [option Z]: [None] is an absent field.
    - The instance state ([this]) is [Fac]; [this.seenNonces] is a
      [gmap string Z].  Everything the code asks of the outside world (the
      clock, the RPC connection, web3 deserialisation) is a per-call oracle
      [Env].
    - Asynchronous code that may throw runs in the state/exception monad [M]:
      an exception is [inl message]; state changes made before the throw
      persist, as object mutation does in JS.  Backoff sleeps are recorded in
      the state as a trace of delays. *)

From stdpp Require Import base gmap strings list.
From Stdlib Require Import ZArith String Ascii DecimalString DecimalN.
Open Scope Z_scope.

(** ** JSON values and JS operators *)

Inductive jsval :=
| JUndef
| JNull
| JBool (b : bool)
| JNum (z : Z)
| JStr (s : string).

(** [a === b] (strict equality). *)
Definition js_eqb (a b : jsval) : bool :=
  match a, b with
  | JUndef, JUndef => true
  | JNull, JNull => true
  | JBool x, JBool y => Bool.eqb x y
  | JNum x, JNum y => Z.eqb x y
  | JStr x, JStr y => String.eqb x y
  | _, _ => false
  end.

Definition js_neqb (a b : jsval) : bool := negb (js_eqb a b).

(** Truthiness of a JSON value. *)
Definition js_truthy (a : jsval) : bool :=
  match a with
  | JUndef | JNull => false
  | JBool b => b
  | JNum z => negb (Z.eqb z 0)
  | JStr s => negb (String.eqb s "")
  end.

Definition str_truthy (s : string) : bool := negb (String.eqb s "").

(** Truthiness of an optional numeric field ([undefined] or [0] is falsy). *)
Definition num_truthy (o : option Z) : bool :=
  match o with None => false | Some z => negb (Z.eqb z 0) end.

(** [BigInt.prototype.toString] on a non-negative bigint. *)
Definition bigint_toString (n : N) : string :=
  NilZero.string_of_uint (N.to_uint n).

(** [Number(v)] for the values the model represents ([None] is NaN); a
    string is read as a plain run of decimal digits. *)
Fixpoint digits_value (s : string) (acc : Z) : option Z :=
  match s with
  | EmptyString => Some acc
  | String c rest =>
      let d := Z.of_nat (nat_of_ascii c) - 48 in
      if (0 <=? d) && (d <=? 9) then digits_value rest (10 * acc + d) else None
  end.

Definition js_Number (v : jsval) : option Z :=
  match v with
  | JUndef => None
  | JNull => Some 0
  | JBool b => Some (if b then 1 else 0)
  | JNum z => Some z
  | JStr s => if String.eqb s "" then Some 0 else digits_value s 0
  end.

(** ** Data model *)

Record Authorization := mkAuthorization {
  from : jsval;
  to : jsval;
  value : jsval;
  asset : jsval;
  validBefore : option Z;
  nonce : option string
}.

Record TransactionMeta := mkTransactionMeta {
  blockhash : option string;
  lastValidBlockHeight : option Z
}.

(** [paymentPayload]; [payload.authorization], [payload.signedTransaction]
    and [payload.transactionMeta] are flattened into it. *)
Record PaymentPayload := mkPaymentPayload {
  x402Version : jsval;
  scheme : jsval;
  network : jsval;
  authorization : option Authorization;
  signedTransaction : option string;
  transactionMeta : option TransactionMeta
}.

Record PaymentRequirements := mkPaymentRequirements {
  req_scheme : jsval;
  req_network : jsval;
  maxAmountRequired : jsval;
  payTo : jsval;
  req_asset : jsval;
  maxTimeoutSeconds : option Z
}.

(** The base64 payment header, represented by what
    [JSON.parse(Buffer.from(h, 'base64').toString())] yields on it. *)
Inductive PaymentHeader :=
| HJson (p : PaymentPayload)
| HMalformed (parse_error : string).

(** A web3 [TransactionInstruction]. *)
Record TransactionInstruction := mkInstruction {
  programId : string;
  keys : list string;
  data : list Z  (** bytes, each in [0, 255] *)
}.

(** A deserialised web3 [Transaction]; [sigs_valid] is what
    [verifySignatures()] returns on it. *)
Record Transaction := mkTransaction {
  instructions : list TransactionInstruction;
  sigs_valid : bool
}.

(** [(parsed.value as any)?.data?.parsed?.info]. *)
Record ParsedInfo := mkParsedInfo {
  info_owner : jsval;
  info_mint : jsval;
  info_decimals : jsval
}.

Record TokenAccount := mkTokenAccount {
  ta_address : string;
  ta_amount : Z
}.

Definition TOKEN_PROGRAM_ID : string := "TokenkegQfeZyiNwAJbNbGKPFXCWuBvf9Ss623VQ5DA".

(** Instance state of the facilitator. *)
Record Fac := mkFac {
  networkId : string;
  usdcMint : string;
  agentWallet : option string;
  seenNonces : gmap string Z
}.

(** Responses of the outside world during one call.  [inl msg] is a thrown
    error. *)
Record Env := mkEnv {
  now : Z;  (** Math.floor(Date.now() / 1000) *)
  getParsedAccountInfo : jsval -> string + option ParsedInfo;
  getBlockHeight : string + Z;
  transactionFrom : string -> string + Transaction;
  sendRawTransaction : nat -> string + string;  (** by attempt index *)
  confirmTransaction : nat -> string -> bool -> string + unit;
      (** attempt, signature, whether blockhash/height were supplied *)
  toPublicKey : jsval -> string + string;
  getOrCreateAssociatedAccountInfo : string -> string + TokenAccount;
  tokenTransfer : string -> string -> option Z -> string + string
}.

Record St := mkSt {
  fac : Fac;
  sleeps : list Z  (** delays passed to setTimeout, in order *)
}.

(** ** The state/exception monad *)

Definition M (A : Type) : Type := Env -> St -> (string + A) * St.

Definition ret {A} (a : A) : M A := fun _ s => (inr a, s).
Definition bind {A B} (m : M A) (k : A -> M B) : M B :=
  fun e s => match m e s with
             | (inl err, s') => (inl err, s')
             | (inr a, s') => k a e s'
             end.
Definition throw {A} (msg : string) : M A := fun _ s => (inl msg, s).
Definition try_catch {A} (m : M A) (h : string -> M A) : M A :=
  fun e s => match m e s with
             | (inl err, s') => h err e s'
             | r => r
             end.
Definition ask {A} (f : Env -> A) : M A := fun e s => (inr (f e), s).
Definition get_fac : M Fac := fun _ s => (inr (fac s), s).
Definition put_nonces (m : gmap string Z) : M unit :=
  fun _ s => (inr tt, mkSt (mkFac (networkId (fac s)) (usdcMint (fac s))
                                  (agentWallet (fac s)) m) (sleeps s)).
Definition sleep (ms : Z) : M unit :=
  fun _ s => (inr tt, mkSt (fac s) (sleeps s ++ [ms])).
(** An awaited call to the outside world: it resolves ([inr]) or rejects
    ([inl]) as the oracle says. *)
Definition call {A} (f : Env -> string + A) : M A :=
  fun e s => match f e with inl err => (inl err, s) | inr a => (inr a, s) end.

Notation "'let*' x := m 'in' k" := (bind m (fun x => k))
  (at level 200, x name, m at level 100, k at level 200).

(** ** Results *)

(** The reason strings of [validatePaymentLocally] and
    [validateSignedTransaction], one constructor per literal; [RError msg] is
    the message of a caught exception. *)
Inductive reason :=
| RInvalidVersion             (** 'Invalid x402 version' *)
| RSchemeMismatch             (** 'Scheme mismatch' *)
| RNetworkMismatch            (** 'Network mismatch' *)
| RNoAuthorization            (** 'No authorization found' *)
| RAmountMismatch             (** 'Amount mismatch' *)
| RRecipientMismatch          (** 'Recipient mismatch' *)
| RAssetMismatch              (** 'Asset mismatch' *)
| RPaymentExpired             (** 'Payment expired' *)
| RInvalidValidityWindow      (** 'Invalid validity window' *)
| RMissingNonce               (** 'Missing nonce' *)
| RReplayDetected             (** 'Replay detected' *)
| RBlockhashExpired           (** 'Blockhash expired' *)
| RMissingAuthorizationBlock  (** 'Missing authorization block' *)
| RInvalidSignature           (** 'Invalid transaction signature' *)
| RMissingTransferInstruction (** 'Missing token transfer instruction' *)
| RInvalidInstructionData     (** 'Invalid transfer instruction data' *)
| RTransferAmountMismatch     (** 'Transfer amount mismatch' *)
| RMissingDestination         (** 'Missing destination account' *)
| RDestinationNotFound        (** 'Destination account not found' *)
| RDestinationOwnerMismatch   (** 'Destination owner mismatch' *)
| RDestinationMintMismatch    (** 'Destination mint mismatch' *)
| RLocalValidationFailed      (** 'Local validation failed' *)
| RVerificationError (msg : string)  (** `Verification error: ${msg}` *)
| RError (msg : string).

(** [{ isValid, reason? }] *)
Inductive Validation :=
| Valid
| Invalid (r : reason).

Record VerificationResult := mkVerificationResult {
  isValid : bool;
  invalidReason : option reason
}.

Record SettlementResult := mkSettlementResult {
  success : bool;
  error : option string;
  txHash : option string;
  result_networkId : option string
}.

(** ** Nonce cache *)

(** [cleanupNonces]: delete every entry with [expiry <= now]. *)
Definition cleanupNonces : M unit :=
  let* t := ask now in
  let* f := get_fac in
  put_nonces (filter (fun kv : string * Z => t < kv.2) (seenNonces f)).

(** Lines 118-124 of [validatePaymentLocally]: sweep, refuse a nonce still
    in the map, otherwise record it with its [validBefore].  [true] means the
    nonce was recorded. *)
Definition registerNonce (n : string) (expiry : Z) : M bool :=
  let* _ := cleanupNonces in
  let* f := get_fac in
  match seenNonces f !! n with
  | Some _ => ret false
  | None =>
      let* _ := put_nonces (<[n := expiry]> (seenNonces f)) in
      ret true
  end.

(** ** Validation *)

Definition validateMintDecimals (mintAddress : jsval) : M unit :=
  let* parsed := call (fun e => getParsedAccountInfo e mintAddress) in
  match parsed with
  | None => throw "Mint account not found"
  | Some info =>
      if js_neqb (info_decimals info) (JNum 6)
      then throw "Unexpected mint decimals (expected 6 for USDC)"
      else ret tt
  end.

(** Little-endian value of a byte list. *)
Fixpoint le_value (bs : list Z) : Z :=
  match bs with
  | [] => 0
  | b :: rest => b + 256 * le_value rest
  end.

(** [readU64(buffer)] = [buffer.readBigUInt64LE(0)]. *)
Definition readU64 (buffer : list Z) : N := Z.to_N (le_value (firstn 8 buffer)).

(** [instruction.data.subarray(1, 9)] *)
Definition subarray_1_9 (d : list Z) : list Z := firstn 8 (skipn 1 d).

Definition validateSignedTransaction (p : PaymentPayload) : M Validation :=
  match signedTransaction p with
  | None => ret Valid
  | Some s =>
    if negb (str_truthy s) then ret Valid else
    match authorization p with
    | None => ret (Invalid RMissingAuthorizationBlock)
    | Some auth =>
      try_catch
        (let* transaction := call (fun e => transactionFrom e s) in
         if negb (sigs_valid transaction) then ret (Invalid RInvalidSignature) else
         match List.find (fun ix => String.eqb (programId ix) TOKEN_PROGRAM_ID)
                         (instructions transaction) with
         | None => ret (Invalid RMissingTransferInstruction)
         | Some ix =>
           if (List.length (data ix) <? 9)%nat || negb (Z.eqb (nth 0 (data ix) 0) 3)
           then ret (Invalid RInvalidInstructionData) else
           let amount := readU64 (subarray_1_9 (data ix)) in
           if js_neqb (JStr (bigint_toString amount)) (value auth)
           then ret (Invalid RTransferAmountMismatch) else
           match nth_error (keys ix) 1 with
           | None => ret (Invalid RMissingDestination)
           | Some destination =>
             let* destinationAccount :=
               call (fun e => getParsedAccountInfo e (JStr destination)) in
             match destinationAccount with
             | None => ret (Invalid RDestinationNotFound)
             | Some info =>
               if js_neqb (info_owner info) (to auth)
               then ret (Invalid RDestinationOwnerMismatch) else
               if js_neqb (info_mint info) (asset auth)
               then ret (Invalid RDestinationMintMismatch) else
               ret Valid
             end
           end
         end)
        (fun err => ret (Invalid (RError err)))
    end
  end.

(** Lines 65-134 of [validatePaymentLocally] (every check up to the
    blockhash check); [k] is the rest of the function (lines 136-144), run
    when all of them pass. *)
Definition validateEnvelope (p : PaymentPayload) (requirements : PaymentRequirements)
    (k : M Validation) : M Validation :=
  if js_neqb (x402Version p) (JNum 1) then ret (Invalid RInvalidVersion) else
  if js_neqb (scheme p) (req_scheme requirements) then ret (Invalid RSchemeMismatch) else
  let* f := get_fac in
  if js_neqb (network p) (JStr (networkId f)) then ret (Invalid RNetworkMismatch) else
  match authorization p with
  | None => ret (Invalid RNoAuthorization)
  | Some auth =>
    if js_neqb (value auth) (maxAmountRequired requirements)
    then ret (Invalid RAmountMismatch) else
    if js_neqb (to auth) (payTo requirements) then ret (Invalid RRecipientMismatch) else
    if js_neqb (asset auth) (req_asset requirements) then ret (Invalid RAssetMismatch) else
    let* t := ask now in
    match validBefore auth with
    | None => ret (Invalid RPaymentExpired)
    | Some vb =>
      if (vb =? 0) || (t >? vb) then ret (Invalid RPaymentExpired) else
      if num_truthy (maxTimeoutSeconds requirements)
         && (vb - t >? default 0 (maxTimeoutSeconds requirements) + 30)
      then ret (Invalid RInvalidValidityWindow) else
      match nonce auth with
      | None => ret (Invalid RMissingNonce)
      | Some n =>
        if negb (str_truthy n) then ret (Invalid RMissingNonce) else
        let* fresh := registerNonce n vb in
        if negb fresh then ret (Invalid RReplayDetected) else
        let* _ := validateMintDecimals (asset auth) in
        match transactionMeta p with
        | Some meta =>
          if num_truthy (lastValidBlockHeight meta) then
            let* currentHeight := call getBlockHeight in
            if currentHeight >? default 0 (lastValidBlockHeight meta)
            then ret (Invalid RBlockhashExpired)
            else k
          else k
        | None => k
        end
      end
    end
  end.

(** Lines 136-144. *)
Definition validateTransactionStep (p : PaymentPayload) : M Validation :=
  match signedTransaction p with
  | Some s =>
    if str_truthy s then
      let* txValidation := validateSignedTransaction p in
      match txValidation with
      | Valid => ret Valid
      | Invalid _ => ret txValidation
      end
    else ret Valid
  | None => ret Valid
  end.

Definition validatePaymentLocally (p : PaymentPayload) (requirements : PaymentRequirements)
    : M Validation :=
  try_catch (validateEnvelope p requirements (validateTransactionStep p))
            (fun err => ret (Invalid (RError err))).

Definition decodeHeader (h : PaymentHeader) : M PaymentPayload :=
  match h with
  | HJson p => ret p
  | HMalformed err => throw err
  end.

(** [validation.reason || 'Local validation failed'] *)
Definition reason_or_default (r : reason) : reason :=
  match r with
  | RError msg => if String.eqb msg "" then RLocalValidationFailed else r
  | _ => r
  end.

Definition verify (paymentHeader : PaymentHeader) (paymentRequirements : PaymentRequirements)
    : M VerificationResult :=
  try_catch
    (let* paymentPayload := decodeHeader paymentHeader in
     let* validation := validatePaymentLocally paymentPayload paymentRequirements in
     match validation with
     | Valid => ret (mkVerificationResult true None)
     | Invalid r => ret (mkVerificationResult false (Some (reason_or_default r)))
     end)
    (fun err => ret (mkVerificationResult false (Some (RVerificationError err)))).

(** ** Settlement *)

Definition maxAttempts : nat := 3.
Definition backoffMs : list Z := [500; 1000; 1500].

(** [String(lastError)]: [undefined] before any attempt, ["Error: msg"]
    for a caught [Error]. *)
Definition show_lastError (lastError : option string) : string :=
  match lastError with
  | None => "undefined"
  | Some msg => String.append "Error: " msg
  end.

(** [meta?.blockhash && meta?.lastValidBlockHeight]: whether confirmation
    uses the supplied blockhash and height. *)
Definition confirmWithMeta (meta : option TransactionMeta) : bool :=
  match meta with
  | Some m => match blockhash m with
              | Some b => str_truthy b && num_truthy (lastValidBlockHeight m)
              | None => false
              end
  | None => false
  end.

(** One iteration of the [for] loop of [sendTransactionWithRetry]: the
    [try] submits and confirms ([inr signature]); the [catch] records the
    error and sleeps [backoffMs[attempt]] unless this was the last attempt
    ([inl error]). *)
Definition sendAttempt (attempt : nat) (useMeta : bool) : M (string + string) :=
  try_catch
    (let* signature := call (fun e => sendRawTransaction e attempt) in
     let* _ := call (fun e => confirmTransaction e attempt signature useMeta) in
     ret (inr signature))
    (fun err =>
       let* _ := (if (attempt <? maxAttempts - 1)%nat
                  then sleep (nth attempt backoffMs 0) else ret tt) in
       ret (inl err)).

(** The loop from attempt [attempt] on; [fuel] is [maxAttempts - attempt]. *)
Fixpoint sendLoop (fuel attempt : nat) (useMeta : bool) (lastError : option string)
    : M string :=
  match fuel with
  | O => throw (String.append "Failed to send transaction after retries: "
                              (show_lastError lastError))
  | S fuel' =>
    let* outcome := sendAttempt attempt useMeta in
    match outcome with
    | inr signature => ret signature
    | inl err => sendLoop fuel' (S attempt) useMeta (Some err)
    end
  end.

Definition sendTransactionWithRetry (transaction : Transaction) (meta : option TransactionMeta)
    : M string :=
  sendLoop maxAttempts 0 (confirmWithMeta meta) None.

(** The legacy branch of [executeUSDCTransfer] (lines 222-265).  The
    'Insufficient USDC balance' message is abbreviated: the [catch] of
    [executeUSDCTransfer] discards every message. *)
Definition legacyTransfer (auth : Authorization) : M string :=
  let* f := get_fac in
  match agentWallet f with
  | None => throw "Agent wallet not initialized (required for legacy flow)"
  | Some wallet =>
    let* recipientAddress := call (fun e => toPublicKey e (to auth)) in
    let amount := js_Number (value auth) in
    let* fromTokenAccount := call (fun e => getOrCreateAssociatedAccountInfo e wallet) in
    let* toTokenAccount :=
      call (fun e => getOrCreateAssociatedAccountInfo e recipientAddress) in
    let insufficient :=
      match amount with Some a => ta_amount fromTokenAccount <? a | None => false end in
    if insufficient then throw "Insufficient USDC balance" else
    call (fun e => tokenTransfer e (ta_address fromTokenAccount)
                                   (ta_address toTokenAccount) amount)
  end.

(** [executeUSDCTransfer]; [requirements] is a parameter of the source
    method as well. *)
Definition executeUSDCTransfer (p : PaymentPayload) (requirements : PaymentRequirements)
    : M (option string) :=
  try_catch
    (match authorization p with
     | None => throw "No authorization found in payment payload"
     | Some auth =>
       let presigned :=
         match signedTransaction p with
         | Some s => if str_truthy s then Some s else None
         | None => None
         end in
       match presigned with
       | Some signedTransactionBase64 =>
         let* transaction := call (fun e => transactionFrom e signedTransactionBase64) in
         let* signature := sendTransactionWithRetry transaction (transactionMeta p) in
         ret (Some signature)
       | None =>
         let* signature := legacyTransfer auth in
         ret (Some signature)
       end
     end)
    (fun _ => ret None).

Definition settle (paymentHeader : PaymentHeader) (paymentRequirements : PaymentRequirements)
    : M SettlementResult :=
  try_catch
    (let* paymentPayload := decodeHeader paymentHeader in
     let* txHash := executeUSDCTransfer paymentPayload paymentRequirements in
     let* f := get_fac in
     match txHash with
     | Some h =>
       if str_truthy h then ret (mkSettlementResult true None (Some h) (Some (networkId f)))
       else ret (mkSettlementResult false (Some "Failed to execute transfer") None None)
     | None => ret (mkSettlementResult false (Some "Failed to execute transfer") None None)
     end)
    (fun err => ret (mkSettlementResult false (Some (String.append "Settlement error: " err)) None None)).

(** ** Network resolution: src/unnamed/part_007 (utils/solana), lines 1-91 *)

(** [type SolanaNetwork = 'devnet' | 'testnet' | 'mainnet-beta'] *)
Inductive SolanaNetwork :=
| Devnet
| Testnet
| MainnetBeta.

(** The string a [SolanaNetwork] value is. *)
Definition network_name (n : SolanaNetwork) : string :=
  match n with
  | Devnet => "devnet"
  | Testnet => "testnet"
  | MainnetBeta => "mainnet-beta"
  end.

(** [a === b] on two [SolanaNetwork] values. *)
Definition network_eqb (a b : SolanaNetwork) : bool :=
  String.eqb (network_name a) (network_name b).

(** [NodeJS.ProcessEnv]: variable name to value. *)
Definition ProcessEnv : Type := gmap string string.

Record NetworkRpcConfig := mkNetworkRpcConfig {
  devnetRpcUrl : option string;
  mainnetRpcUrl : option string;
  testnetRpcUrl : option string
}.

Record SolanaNetworkConfig := mkSolanaNetworkConfig {
  cfg_network : SolanaNetwork;
  rpcUrl : string;
  cfg_networkId : string
}.

Definition NETWORK_ID_PREFIX : string := "solana".

(** [String.prototype.toLowerCase] on one character; strings are taken to
    be ASCII, whose upper-case letters are 'A'..'Z' (65-90). *)
Definition ascii_toLowerCase (c : ascii) : ascii :=
  let n := nat_of_ascii c in
  if (65 <=? n)%nat && (n <=? 90)%nat then ascii_of_nat (n + 32) else c.

Fixpoint toLowerCase (s : string) : string :=
  match s with
  | EmptyString => EmptyString
  | String c rest => String (ascii_toLowerCase c) (toLowerCase rest)
  end.

(** [raw || fallback] on an optional string ([undefined] and [''] are
    falsy). *)
Definition or_default (raw : option string) (fallback : string) : string :=
  match raw with
  | Some s => if str_truthy s then s else fallback
  | None => fallback
  end.

Definition normalizeNetwork (raw : option string) : SolanaNetwork :=
  let value := toLowerCase (or_default raw "devnet") in
  if String.eqb value "mainnet" || String.eqb value "mainnet-beta"
     || String.eqb value "mainnetbeta"
  then MainnetBeta
  else if String.eqb value "testnet" then Testnet
  else Devnet.

Definition networkToId (network : SolanaNetwork) : string :=
  if network_eqb network MainnetBeta
  then String.append NETWORK_ID_PREFIX "-mainnet-beta"
  else String.append NETWORK_ID_PREFIX (String.append "-" (network_name network)).

(** [s.replace(pattern, replacement)] with a string pattern: only the first
    occurrence is replaced. *)
Fixpoint js_replace (s pattern replacement : string) : string :=
  if String.prefix pattern s
  then String.append replacement
         (substring (String.length pattern) (String.length s - String.length pattern) s)
  else match s with
       | EmptyString => EmptyString
       | String c rest => String c (js_replace rest pattern replacement)
       end.

Definition networkIdToNetwork (networkId : string) : SolanaNetwork :=
  let stripped := js_replace networkId (String.append NETWORK_ID_PREFIX "-") "" in
  normalizeNetwork (Some stripped).

(** [if (cond && value) return value]: the early return it makes, if any. *)
Definition return_if (cond : bool) (value : option string) : option string :=
  match value with
  | Some v => if cond && str_truthy v then Some v else None
  | None => None
  end.

(** The first early return taken, in program order. *)
Fixpoint first_return (rs : list (option string)) : option string :=
  match rs with
  | [] => None
  | Some v :: _ => Some v
  | None :: rest => first_return rest
  end.

Section Cluster.
(** [clusterApiUrl] of @solana/web3.js: the public RPC endpoint of a
    cluster. *)
Variable clusterApiUrl : SolanaNetwork -> string.

Definition resolveSolanaNetwork (env : ProcessEnv) : SolanaNetworkConfig :=
  let network := normalizeNetwork (env !! "SOLANA_NETWORK") in
  let url := or_default (env !! "SOLANA_RPC_URL") (clusterApiUrl network) in
  let netId := networkToId network in
  mkSolanaNetworkConfig network url netId.

Definition resolveRpcUrlForNetwork (network : SolanaNetwork)
    (config : option NetworkRpcConfig) (env : ProcessEnv) : string :=
  let from_config :=
    match config with
    | Some c =>
      [return_if (network_eqb network MainnetBeta) (mainnetRpcUrl c);
       return_if (network_eqb network Devnet) (devnetRpcUrl c);
       return_if (network_eqb network Testnet) (testnetRpcUrl c)]
    | None => []
    end in
  let defaultNetwork := normalizeNetwork (env !! "SOLANA_NETWORK") in
  match first_return
          (from_config ++
           [return_if (network_eqb network MainnetBeta) (env !! "SOLANA_MAINNET_RPC_URL");
            return_if (network_eqb network Devnet) (env !! "SOLANA_DEVNET_RPC_URL");
            return_if (network_eqb network Testnet) (env !! "SOLANA_TESTNET_RPC_URL");
            return_if (network_eqb network defaultNetwork) (env !! "SOLANA_RPC_URL")]) with
  | Some url => url
  | None => clusterApiUrl network
  end.
End Cluster.

(** ** Construction and advertised schemes (X402FacilitatorServer.ts) *)

Definition DEFAULT_USDC_MINT : string := "4zMMC9srt5Ri5X14GAgXhaHii3GnPAEERYPJgZJDncDU".

(** The constructor (lines 17-37) under the process environment [env]:
    [newConnection] and [newPublicKey] give the message of the error
    [new Connection(_)] and [new PublicKey(_)] throw, if any;
    [loadKeypairFromEnv] is the keypair it loads ([inl] when it throws, its
    error being caught and logged).  The [Connection] itself is the [Env]
    oracle of the later calls. *)
Definition newX402FacilitatorServer (clusterApiUrl : SolanaNetwork -> string)
    (env : ProcessEnv) (newConnection : string -> option string)
    (newPublicKey : string -> option string) (loadKeypairFromEnv : string + option string)
    : string + Fac :=
  let cfg := resolveSolanaNetwork clusterApiUrl env in
  let mint := or_default (env !! "USDC_MINT") DEFAULT_USDC_MINT in
  match newConnection (rpcUrl cfg) with
  | Some err => inl err
  | None =>
    match newPublicKey mint with
    | Some err => inl err
    | None =>
      let wallet := match loadKeypairFromEnv with
                    | inr (Some keypair) => Some keypair
                    | _ => None
                    end in
      inr (mkFac (cfg_networkId cfg) mint wallet ∅)
    end
  end.

Record SchemeKind := mkSchemeKind {
  kind_scheme : string;
  kind_network : string
}.

(** [getSupportedSchemes().kinds] *)
Definition getSupportedSchemes (f : Fac) : list SchemeKind :=
  [mkSchemeKind "exact" (networkId f)].

(** ** Reasoning about the embedding *)

(** The checks of [validateEnvelope] before the nonce registration, as a
    pure function of the payload, the requirements, [this.networkId] and the
    clock: either the reason returned, or the authorization, nonce and
    [validBefore] they let through. *)
Definition envelope_checks (p : PaymentPayload) (requirements : PaymentRequirements)
    (netId : string) (t : Z) : reason + (Authorization * string * Z) :=
  if js_neqb (x402Version p) (JNum 1) then inl RInvalidVersion else
  if js_neqb (scheme p) (req_scheme requirements) then inl RSchemeMismatch else
  if js_neqb (network p) (JStr netId) then inl RNetworkMismatch else
  match authorization p with
  | None => inl RNoAuthorization
  | Some auth =>
    if js_neqb (value auth) (maxAmountRequired requirements) then inl RAmountMismatch else
    if js_neqb (to auth) (payTo requirements) then inl RRecipientMismatch else
    if js_neqb (asset auth) (req_asset requirements) then inl RAssetMismatch else
    match validBefore auth with
    | None => inl RPaymentExpired
    | Some vb =>
      if (vb =? 0) || (t >? vb) then inl RPaymentExpired else
      if num_truthy (maxTimeoutSeconds requirements)
         && (vb - t >? default 0 (maxTimeoutSeconds requirements) + 30)
      then inl RInvalidValidityWindow else
      match nonce auth with
      | None => inl RMissingNonce
      | Some n => if negb (str_truthy n) then inl RMissingNonce else inr (auth, n, vb)
      end
    end
  end.

(** What [validateEnvelope] does from the nonce registration on. *)
Definition envelope_rest (p : PaymentPayload) (auth : Authorization) (n : string) (vb : Z)
    (k : M Validation) : M Validation :=
  let* fresh := registerNonce n vb in
  if negb fresh then ret (Invalid RReplayDetected) else
  let* _ := validateMintDecimals (asset auth) in
  match transactionMeta p with
  | Some meta =>
    if num_truthy (lastValidBlockHeight meta) then
      let* currentHeight := call getBlockHeight in
      if currentHeight >? default 0 (lastValidBlockHeight meta)
      then ret (Invalid RBlockhashExpired)
      else k
    else k
  | None => k
  end.

Definition set_nonces (s : St) (m : gmap string Z) : St :=
  mkSt (mkFac (networkId (fac s)) (usdcMint (fac s)) (agentWallet (fac s)) m) (sleeps s).

(** The payload with its [signedTransaction] replaced. *)
Definition with_signedTransaction (p : PaymentPayload) (st : option string) : PaymentPayload :=
  mkPaymentPayload (x402Version p) (scheme p) (network p) (authorization p) st
                   (transactionMeta p).

(** A sequence of [verify] calls, each with its own responses of the world. *)
Fixpoint verify_trace (calls : list (Env * PaymentHeader * PaymentRequirements)) (s : St) : St :=
  match calls with
  | [] => s
  | (e, h, r) :: rest => verify_trace rest (snd (verify h r e s))
  end.

(** A monadic computation keeps the property [P] of the state, under the
    responses [e]. *)
Definition preserves_in {A} (e : Env) (P : St -> Prop) (m : M A) : Prop :=
  forall s, P s -> P (snd (m e s)).

(** A property of the facilitator part of the state. *)
Definition fac_only (Q : Fac -> Prop) : St -> Prop := fun s => Q (fac s).

(** Attempt [i] of [sendTransactionWithRetry] fails: submission or
    confirmation rejects. *)
Definition attempt_fails (e : Env) (i : nat) (useMeta : bool) : Prop :=
  match sendRawTransaction e i with
  | inl _ => True
  | inr signature => exists err, confirmTransaction e i signature useMeta = inl err
  end.

(** The reasons [validatePaymentLocally] decides before the nonce
    registration (lines 65-116). *)
Definition early_reason (r : reason) : bool :=
  match r with
  | RInvalidVersion | RSchemeMismatch | RNetworkMismatch | RNoAuthorization
  | RAmountMismatch | RRecipientMismatch | RAssetMismatch | RPaymentExpired
  | RInvalidValidityWindow | RMissingNonce => true
  | _ => false
  end.

(** The part of the state other than the nonce cache. *)
Definition config_of (s : St) : string * string * option string * list Z :=
  (networkId (fac s), usdcMint (fac s), agentWallet (fac s), sleeps s).

(** The [k] low bytes of [a], little-endian ([writeBigUInt64LE] for
    [k = 8]). *)
Fixpoint le_bytes (k : nat) (a : Z) : list Z :=
  match k with
  | O => []
  | S k' => a mod 256 :: le_bytes k' (a / 256)
  end.

(** The entry of a [NetworkRpcConfig] for a network, and the
    network-specific environment variable. *)
Definition rpc_config_field (c : NetworkRpcConfig) (n : SolanaNetwork) : option string :=
  match n with
  | MainnetBeta => mainnetRpcUrl c
  | Devnet => devnetRpcUrl c
  | Testnet => testnetRpcUrl c
  end.

Definition network_env_var (n : SolanaNetwork) : string :=
  match n with
  | MainnetBeta => "SOLANA_MAINNET_RPC_URL"
  | Devnet => "SOLANA_DEVNET_RPC_URL"
  | Testnet => "SOLANA_TESTNET_RPC_URL"
  end.

(** An optional string that is set and non-empty. *)
Definition usable (o : option string) : bool :=
  match o with Some u => str_truthy u | None => false end.

(** Concrete instances used by the witnesses and counterexamples:
    a devnet facilitator without wallet, requirements for 1 USDC (6 decimals)
    to payee "P" in mint "M", and a world at time 1000 where the mint has 6
    decimals and every submission fails. *)
Definition fac0 : Fac := mkFac "solana-devnet" "M" None ∅.
Definition st0 : St := mkSt fac0 [].
Definition req0 : PaymentRequirements :=
  mkPaymentRequirements (JStr "exact") (JStr "solana-devnet") (JStr "1000000")
                        (JStr "P") (JStr "M") None.
Definition auth0 (vb : Z) : Authorization :=
  mkAuthorization (JStr "A") (JStr "P") (JStr "1000000") (JStr "M") (Some vb) (Some "abc").
Definition pay0 (vb : Z) : PaymentPayload :=
  mkPaymentPayload (JNum 1) (JStr "exact") (JStr "solana-devnet") (Some (auth0 vb)) None None.
Definition env_at (t : Z) (decimals : Z) : Env := {|
  now := t;
  getParsedAccountInfo := fun _ => inr (Some (mkParsedInfo (JStr "P") (JStr "M") (JNum decimals)));
  getBlockHeight := inr 5;
  transactionFrom := fun _ => inr (mkTransaction [] true);
  sendRawTransaction := fun _ => inl "blockhash not found";
  confirmTransaction := fun _ _ _ => inr tt;
  toPublicKey := fun _ => inl "Invalid public key input";
  getOrCreateAssociatedAccountInfo := fun _ => inl "account lookup failed";
  tokenTransfer := fun _ _ _ => inl "transfer failed" |}.

(** A world at time 1000 with a 6-decimal mint whose attached transaction
    deserialises to [tx]; every account it is asked about belongs to "P" in
    mint "M". *)
Definition env_tx (tx : Transaction) : Env := {|
  now := 1000;
  getParsedAccountInfo := fun _ => inr (Some (mkParsedInfo (JStr "P") (JStr "M") (JNum 6)));
  getBlockHeight := inr 5;
  transactionFrom := fun _ => inr tx;
  sendRawTransaction := fun _ => inr "sig";
  confirmTransaction := fun _ _ _ => inr tt;
  toPublicKey := fun _ => inl "Invalid public key input";
  getOrCreateAssociatedAccountInfo := fun _ => inl "account lookup failed";
  tokenTransfer := fun _ _ _ => inl "transfer failed" |}.

(** A world for the legacy path: every public key resolves to "P", the
    associated token account of [owner] is "<owner>-usdc" holding
    [balance] units, and the token transfer is signed "legacy-sig". *)
Definition env_legacy (balance : Z) : Env := {|
  now := 1000;
  getParsedAccountInfo := fun _ => inr (Some (mkParsedInfo (JStr "P") (JStr "M") (JNum 6)));
  getBlockHeight := inr 5;
  transactionFrom := fun _ => inl "no transaction";
  sendRawTransaction := fun _ => inl "blockhash not found";
  confirmTransaction := fun _ _ _ => inr tt;
  toPublicKey := fun _ => inr "P";
  getOrCreateAssociatedAccountInfo :=
    fun owner => inr (mkTokenAccount (String.append owner "-usdc") balance);
  tokenTransfer := fun _ _ _ => inr "legacy-sig" |}.
Definition st_wallet : St := mkSt (mkFac "solana-devnet" "M" (Some "W") ∅) [].

(** A token transfer instruction of 500000 units (LE bytes 20 A1 07 00 ...). *)
Definition ix500k : TransactionInstruction :=
  mkInstruction TOKEN_PROGRAM_ID ["source"; "destination"; "A"] [3; 32; 161; 7; 0; 0; 0; 0; 0].
Definition tx500k : Transaction := mkTransaction [ix500k] true.
Definition pay_tx (vb : Z) : PaymentPayload := with_signedTransaction (pay0 vb) (Some "AQAB").

(** [verify]'s answer for a validation outcome. *)
Definition verification_of (v : Validation) : VerificationResult :=
  match v with
  | Valid => mkVerificationResult true None
  | Invalid r => mkVerificationResult false (Some (reason_or_default r))
  end.

(** The requirements with [network] replaced. *)
Definition with_req_network (r : PaymentRequirements) (net : jsval) : PaymentRequirements :=
  mkPaymentRequirements (req_scheme r) net (maxAmountRequired r) (payTo r) (req_asset r)
                        (maxTimeoutSeconds r).

(** *** Unfolding lemmas *)

Create HintDb facilitator.

Ltac unfold_monad :=
  unfold bind, ret, throw, try_catch, ask, get_fac, put_nonces, sleep, call in *.

Lemma put_nonces_run (m : gmap string Z) (e : Env) (s : St) :
  put_nonces m e s = (inr tt, set_nonces s m).
Proof. reflexivity. Qed.

Lemma registerNonce_run (n : string) (expiry : Z) (e : Env) (s : St) :
  registerNonce n expiry e s =
  let m := filter (fun kv : string * Z => now e < kv.2) (seenNonces (fac s)) in
  match m !! n with
  | Some _ => (inr false, set_nonces s m)
  | None => (inr true, set_nonces s (<[n := expiry]> m))
  end.
Proof.
  unfold registerNonce, cleanupNonces. unfold_monad. simpl.
  destruct (filter _ _ !! n); reflexivity.
Qed.

Lemma validateEnvelope_unfold (p : PaymentPayload) (r : PaymentRequirements)
    (k : M Validation) (e : Env) (s : St) :
  validateEnvelope p r k e s =
  match envelope_checks p r (networkId (fac s)) (now e) with
  | inl rs => (inr (Invalid rs), s)
  | inr (auth, n, vb) => envelope_rest p auth n vb k e s
  end.
Proof.
  unfold validateEnvelope, envelope_checks, envelope_rest. unfold_monad.
  repeat (case_match; simplify_eq; try reflexivity).
Qed.

Lemma validatePaymentLocally_no_throw (p : PaymentPayload) (r : PaymentRequirements)
    (e : Env) (s : St) :
  exists v s', validatePaymentLocally p r e s = (inr v, s').
Proof.
  unfold validatePaymentLocally, try_catch, ret.
  destruct (validateEnvelope _ _ _ e s) as [[err|v] s']; eauto.
Qed.

Lemma verify_HJson (p : PaymentPayload) (r : PaymentRequirements) (e : Env) (s s' : St)
    (v : Validation) :
  validatePaymentLocally p r e s = (inr v, s') ->
  verify (HJson p) r e s = (inr (verification_of v), s').
Proof.
  intros Hv. unfold verify, decodeHeader. unfold try_catch at 1. unfold bind at 1.
  unfold ret at 1. unfold bind. rewrite Hv. destruct v; reflexivity.
Qed.

Lemma verify_HJson_inv (p : PaymentPayload) (r : PaymentRequirements) (e : Env) (s s' : St)
    (res : VerificationResult) :
  verify (HJson p) r e s = (inr res, s') ->
  exists v, validatePaymentLocally p r e s = (inr v, s') /\ res = verification_of v.
Proof.
  destruct (validatePaymentLocally_no_throw p r e s) as (v & s1 & Hv).
  rewrite (verify_HJson _ _ _ _ _ _ Hv). intros [= <- <-]. eauto.
Qed.

Lemma envelope_rest_reaches (p : PaymentPayload) (auth : Authorization) (n : string) (vb : Z)
    (k : M Validation) (e : Env) (s s' : St) :
  envelope_rest p auth n vb (ret Valid) e s = (inr Valid, s') ->
  envelope_rest p auth n vb k e s = k e s'.
Proof.
  intros H. unfold envelope_rest in *. unfold_monad.
  repeat (case_match; simplify_eq; try discriminate); auto.
Qed.

(** Reading the amount back from its decimal string. *)
Lemma bigint_toString_inj (a b : N) :
  bigint_toString a = bigint_toString b -> a = b.
Proof.
  unfold bigint_toString. intros H.
  assert (Hnil : forall n : N, N.to_uint n <> Decimal.Nil).
  { intros n Hn. pose proof (DecimalN.Unsigned.of_to n) as Ho. rewrite Hn in Ho.
    simpl in Ho. subst n. discriminate Hn. }
  apply DecimalN.Unsigned.to_uint_inj.
  pose proof (NilZero.usu _ (Hnil a)) as Ha. pose proof (NilZero.usu _ (Hnil b)) as Hb.
  rewrite H in Ha. congruence.
Qed.

(** *** Instruction-level binding of the pre-signed transaction *)

Lemma validatePaymentLocally_reaches_tail (p : PaymentPayload) (r : PaymentRequirements)
    (e : Env) (s s' : St) :
  validatePaymentLocally (with_signedTransaction p None) r e s = (inr Valid, s') ->
  validatePaymentLocally p r e s =
  match validateTransactionStep p e s' with
  | (inl err, s2) => (inr (Invalid (RError err)), s2)
  | res => res
  end.
Proof.
  unfold validatePaymentLocally, try_catch. rewrite !validateEnvelope_unfold.
  change (envelope_checks (with_signedTransaction p None) r) with (envelope_checks p r).
  destruct (envelope_checks p r (networkId (fac s)) (now e)) as [rs|[[auth n] vb]];
    [discriminate|].
  intros H.
  destruct (envelope_rest (with_signedTransaction p None) auth n vb
              (validateTransactionStep (with_signedTransaction p None)) e s)
    as [[err|v] s1] eqn:Hr; [discriminate|].
  injection H as -> ->.
  rewrite (envelope_rest_reaches p auth n vb (validateTransactionStep p) e s s');
    [reflexivity|exact Hr].
Qed.

(** Claim C1.  For a payload whose attached transaction deserialises, whose
    signatures verify and which has a token-program instruction, and whose
    envelope (the same payload without the transaction) verifies: an
    instruction whose data is shorter than 9 bytes or whose byte 0 is not the
    transfer opcode 3 makes [verify] answer 'Invalid transfer instruction
    data'; otherwise bytes 1-8 are read as a little-endian u64, and when the
    authorization's [value] is the decimal string of a different amount,
    [verify] answers 'Transfer amount mismatch'. *)
Theorem instruction_amount_binding (p : PaymentPayload) (r : PaymentRequirements) (e : Env)
    (s s' : St) (auth : Authorization) (stx : string) (tx : Transaction)
    (ix : TransactionInstruction) :
  signedTransaction p = Some stx -> str_truthy stx = true ->
  authorization p = Some auth ->
  verify (HJson (with_signedTransaction p None)) r e s
    = (inr (mkVerificationResult true None), s') ->
  transactionFrom e stx = inr tx -> sigs_valid tx = true ->
  List.find (fun i => String.eqb (programId i) TOKEN_PROGRAM_ID) (instructions tx) = Some ix ->
  (((List.length (data ix) < 9)%nat \/ nth 0 (data ix) 0 <> 3) ->
     verify (HJson p) r e s
       = (inr (mkVerificationResult false (Some RInvalidInstructionData)), s')) /\
  (forall a : N, (9 <= List.length (data ix))%nat -> nth 0 (data ix) 0 = 3 ->
     value auth = JStr (bigint_toString a) ->
     a <> readU64 (subarray_1_9 (data ix)) ->
     verify (HJson p) r e s
       = (inr (mkVerificationResult false (Some RTransferAmountMismatch)), s')).
Proof.
  intros Hst Htr Hauth Hv Hfrom Hsig Hfind.
  apply verify_HJson_inv in Hv as (v & Hv & Hres).
  destruct v as [|rs]; [|discriminate Hres].
  pose proof (validatePaymentLocally_reaches_tail p r e s s' Hv) as Htail.
  assert (Hstep : forall res,
             validateSignedTransaction p e s' = (inr (Invalid res), s') ->
             verify (HJson p) r e s = (inr (verification_of (Invalid res)), s')).
  { intros res Hvs.
    assert (Hl : validatePaymentLocally p r e s = (inr (Invalid res), s')).
    { rewrite Htail. unfold validateTransactionStep. rewrite Hst, Htr.
      unfold bind. rewrite Hvs. reflexivity. }
    exact (verify_HJson _ _ _ _ _ _ Hl). }
  unfold validateSignedTransaction in Hstep. rewrite Hst, Htr, Hauth in Hstep.
  simpl in Hstep. unfold try_catch, bind, call in Hstep. rewrite Hfrom, Hsig, Hfind in Hstep.
  split.
  - intros Hbad. refine (Hstep RInvalidInstructionData _).
    destruct Hbad as [Hlen|Hop].
    + apply Nat.ltb_lt in Hlen. rewrite Hlen. reflexivity.
    + destruct (List.length (data ix) <? 9)%nat; [reflexivity|].
      apply Z.eqb_neq in Hop. rewrite Hop. reflexivity.
  - intros a Hlen Hop Hval Hne. refine (Hstep RTransferAmountMismatch _).
    assert (Hl : (List.length (data ix) <? 9)%nat = false) by (apply Nat.ltb_ge; lia).
    rewrite Hl, Hop. simpl. rewrite Hval.
    unfold js_neqb. simpl.
    destruct (String.eqb_spec (bigint_toString (readU64 (subarray_1_9 (data ix))))
                              (bigint_toString a)) as [Heq|Heq].
    + apply bigint_toString_inj in Heq. congruence.
    + reflexivity.
Qed.

Lemma instruction_amount_binding_witness :
  verify (HJson (pay_tx 1100)) req0 (env_tx tx500k) st0
  = (inr (mkVerificationResult false (Some RTransferAmountMismatch)),
     snd (verify (HJson (with_signedTransaction (pay_tx 1100) None)) req0 (env_tx tx500k) st0)).
Proof.
  refine (proj2 (instruction_amount_binding (pay_tx 1100) req0 (env_tx tx500k) st0
            (snd (verify (HJson (with_signedTransaction (pay_tx 1100) None)) req0
                    (env_tx tx500k) st0))
            (auth0 1100) "AQAB" tx500k ix500k eq_refl eq_refl eq_refl _ eq_refl eq_refl eq_refl)
            1000000%N _ _ _ _).
  - vm_compute. reflexivity.
  - simpl. lia.
  - reflexivity.
  - vm_compute. reflexivity.
  - vm_compute. discriminate.
Defined.

(** *** Frame reasoning: properties of the state kept by a computation *)

Section Preserves.
Variable e : Env.
Variable P : St -> Prop.

Lemma preserves_ret {A} (a : A) : preserves_in e P (ret a).
Proof. intros s Hs. exact Hs. Qed.

Lemma preserves_throw {A} (msg : string) : preserves_in e P (@throw A msg).
Proof. intros s Hs. exact Hs. Qed.

Lemma preserves_ask {A} (f : Env -> A) : preserves_in e P (ask f).
Proof. intros s Hs. exact Hs. Qed.

Lemma preserves_get_fac : preserves_in e P get_fac.
Proof. intros s Hs. exact Hs. Qed.

Lemma preserves_call {A} (f : Env -> string + A) : preserves_in e P (call f).
Proof. intros s Hs. unfold call. destruct (f e); exact Hs. Qed.

Lemma preserves_bind {A B} (m : M A) (k : A -> M B) :
  preserves_in e P m -> (forall a, preserves_in e P (k a)) -> preserves_in e P (bind m k).
Proof.
  intros Hm Hk s Hs. unfold bind. specialize (Hm s Hs).
  destruct (m e s) as [[err|a] s']; simpl in *; [exact Hm|]. apply Hk, Hm.
Qed.

Lemma preserves_try_catch {A} (m : M A) (h : string -> M A) :
  preserves_in e P m -> (forall err, preserves_in e P (h err)) ->
  preserves_in e P (try_catch m h).
Proof.
  intros Hm Hh s Hs. unfold try_catch. specialize (Hm s Hs).
  destruct (m e s) as [[err|a] s']; simpl in *; [apply Hh, Hm|exact Hm].
Qed.
End Preserves.

#[export] Hint Resolve preserves_ret preserves_throw preserves_ask preserves_get_fac
  preserves_call : facilitator.

(** Walk a computation built from the monad's operations, splitting on its
    conditionals; named sub-computations are left to hint lemmas. *)
Ltac preserves_walk :=
  cbv zeta;
  repeat (intros;
    match goal with
    | |- preserves_in _ _ (bind _ _) => apply preserves_bind
    | |- preserves_in _ _ (try_catch _ _) => apply preserves_try_catch
    | |- preserves_in _ _ (match ?x with _ => _ end) => destruct x
    | |- preserves_in _ _ _ => solve [eauto with facilitator]
    end).

(** Sleeping leaves the facilitator untouched. *)

Lemma preserves_sleep (e : Env) (Q : Fac -> Prop) (ms : Z) :
  preserves_in e (fac_only Q) (sleep ms).
Proof. intros s Hs. exact Hs. Qed.
#[export] Hint Resolve preserves_sleep : facilitator.

Lemma validateMintDecimals_preserves (e : Env) (P : St -> Prop) (a : jsval) :
  preserves_in e P (validateMintDecimals a).
Proof. unfold validateMintDecimals. preserves_walk. Qed.
#[export] Hint Resolve validateMintDecimals_preserves : facilitator.

Lemma validateSignedTransaction_preserves (e : Env) (P : St -> Prop) (p : PaymentPayload) :
  preserves_in e P (validateSignedTransaction p).
Proof. unfold validateSignedTransaction. preserves_walk. Qed.
#[export] Hint Resolve validateSignedTransaction_preserves : facilitator.

Lemma validateTransactionStep_preserves (e : Env) (P : St -> Prop) (p : PaymentPayload) :
  preserves_in e P (validateTransactionStep p).
Proof. unfold validateTransactionStep. preserves_walk. Qed.
#[export] Hint Resolve validateTransactionStep_preserves : facilitator.

Lemma sendLoop_preserves (e : Env) (Q : Fac -> Prop) (fuel attempt : nat) (useMeta : bool)
    (lastError : option string) :
  preserves_in e (fac_only Q) (sendLoop fuel attempt useMeta lastError).
Proof.
  revert attempt lastError. induction fuel as [|fuel IH]; intros attempt lastError; simpl.
  - apply preserves_throw.
  - apply preserves_bind; [|intros [err|sig]; auto using preserves_ret].
    unfold sendAttempt. preserves_walk.
Qed.
#[export] Hint Resolve sendLoop_preserves : facilitator.

(** A recorded nonce stays recorded, with the same expiry, through a
    registration made before that expiry. *)
Lemma registerNonce_keeps_live (e : Env) (n : string) (vb : Z) (n' : string) (expiry : Z) :
  now e < vb ->
  preserves_in e (fun s => seenNonces (fac s) !! n = Some vb) (registerNonce n' expiry).
Proof.
  intros Hlt s Hs. rewrite registerNonce_run. simpl.
  assert (Hf : filter (fun kv : string * Z => now e < kv.2) (seenNonces (fac s)) !! n = Some vb).
  { apply map_lookup_filter_Some. split; [exact Hs | simpl; lia]. }
  destruct (filter _ (seenNonces (fac s)) !! n') eqn:Hn'; simpl.
  - exact Hf.
  - rewrite lookup_insert_ne; [exact Hf|]. intros ->. congruence.
Qed.

Lemma verify_keeps_live (e : Env) (n : string) (vb : Z) (h : PaymentHeader)
    (r : PaymentRequirements) :
  now e < vb ->
  preserves_in e (fun s => seenNonces (fac s) !! n = Some vb) (verify h r).
Proof.
  intros Hlt. unfold verify, decodeHeader, validatePaymentLocally, validateEnvelope.
  preserves_walk.
  all: apply registerNonce_keeps_live; exact Hlt.
Qed.

Lemma verify_trace_keeps_live (calls : list (Env * PaymentHeader * PaymentRequirements))
    (n : string) (vb : Z) (s : St) :
  Forall (fun c : Env * PaymentHeader * PaymentRequirements => now c.1.1 < vb) calls ->
  seenNonces (fac s) !! n = Some vb ->
  seenNonces (fac (verify_trace calls s)) !! n = Some vb.
Proof.
  revert s. induction calls as [|[[e h] r] calls IH]; intros s Hall Hs; simpl; [exact Hs|].
  inversion Hall as [|? ? Hnow Hrest]; subst. simpl in Hnow.
  apply IH; [exact Hrest|]. exact (verify_keeps_live e n vb h r Hnow s Hs).
Qed.

Lemma envelope_checks_inr (p : PaymentPayload) (r : PaymentRequirements) (net : string)
    (t : Z) (auth : Authorization) (n : string) (vb : Z) :
  envelope_checks p r net t = inr (auth, n, vb) ->
  authorization p = Some auth /\ nonce auth = Some n /\ validBefore auth = Some vb.
Proof.
  unfold envelope_checks. repeat (case_match; try discriminate). intros [= -> -> ->]. auto.
Qed.

(** A successful validation leaves its nonce recorded with its
    [validBefore]. *)
Lemma validate_records_nonce (p : PaymentPayload) (r : PaymentRequirements) (e : Env)
    (s s' : St) (auth : Authorization) (n : string) (vb : Z) :
  validatePaymentLocally p r e s = (inr Valid, s') ->
  authorization p = Some auth -> nonce auth = Some n -> validBefore auth = Some vb ->
  seenNonces (fac s') !! n = Some vb.
Proof.
  intros Hv Ha Hn Hvb. unfold validatePaymentLocally, try_catch in Hv.
  rewrite validateEnvelope_unfold in Hv.
  destruct (envelope_checks p r (networkId (fac s)) (now e)) as [rs|[[a n'] vb']] eqn:Hc;
    [discriminate|].
  apply envelope_checks_inr in Hc as (Ha' & Hn' & Hvb').
  rewrite Ha in Ha'. injection Ha' as <-. rewrite Hn in Hn'. injection Hn' as <-.
  rewrite Hvb in Hvb'. injection Hvb' as <-.
  unfold envelope_rest, bind at 1 in Hv.
  rewrite registerNonce_run in Hv. cbv zeta in Hv.
  destruct (filter _ (seenNonces (fac s)) !! n) eqn:Hlook; [simpl in Hv; discriminate|].
  simpl in Hv.
  set (s1 := set_nonces s _) in Hv.
  assert (Hs1 : seenNonces (fac s1) !! n = Some vb) by (simpl; apply lookup_insert_eq).
  set (m := bind (validateMintDecimals (asset auth)) _) in Hv.
  assert (Hp : preserves_in e (fun s => seenNonces (fac s) !! n = Some vb) m)
    by (subst m; preserves_walk).
  specialize (Hp s1 Hs1).
  destruct (m e s1) as [[err|v] s2]; unfold ret in Hv; simpl in Hv, Hp; congruence.
Qed.

(** Claim C2.  After a [verify] that succeeds with nonce [n] and
    [validBefore] [vb], any number of further [verify] calls made before
    [vb], and a second payload with the same nonce that would verify if [n]
    were not recorded: that second payload, presented before [vb], is
    rejected with 'Replay detected'. *)
Theorem replay_rejected_before_expiry (p p2 : PaymentPayload) (r r2 : PaymentRequirements)
    (e1 e2 : Env) (calls : list (Env * PaymentHeader * PaymentRequirements)) (s s1 : St)
    (auth auth2 : Authorization) (n : string) (vb : Z) :
  verify (HJson p) r e1 s = (inr (mkVerificationResult true None), s1) ->
  authorization p = Some auth -> nonce auth = Some n -> validBefore auth = Some vb ->
  Forall (fun c : Env * PaymentHeader * PaymentRequirements => now c.1.1 < vb) calls ->
  now e2 < vb ->
  authorization p2 = Some auth2 -> nonce auth2 = Some n ->
  let s2 := verify_trace calls s1 in
  fst (verify (HJson p2) r2 e2 (set_nonces s2 (delete n (seenNonces (fac s2)))))
    = inr (mkVerificationResult true None) ->
  fst (verify (HJson p2) r2 e2 s2)
    = inr (mkVerificationResult false (Some RReplayDetected)).
Proof.
  intros Hv1 Ha Hn Hvb Hcalls Hnow Ha2 Hn2 s2 Hindep.
  apply verify_HJson_inv in Hv1 as (v & Hv1 & Hres).
  destruct v as [|rs]; [|discriminate Hres].
  pose proof (validate_records_nonce _ _ _ _ _ _ _ _ Hv1 Ha Hn Hvb) as Hrec.
  pose proof (verify_trace_keeps_live calls n vb s1 Hcalls Hrec) as Hlive. fold s2 in Hlive.
  (* the second payload passes every check before the nonce registration *)
  destruct (verify (HJson p2) r2 e2 (set_nonces s2 (delete n (seenNonces (fac s2)))))
    as [res s3] eqn:Hv2; simpl in Hindep; subst res.
  apply verify_HJson_inv in Hv2 as (v2 & Hv2 & Hres2).
  unfold validatePaymentLocally, try_catch in Hv2. rewrite validateEnvelope_unfold in Hv2.
  simpl networkId in Hv2.
  destruct (envelope_checks p2 r2 (networkId (fac s2)) (now e2)) as [rs|[[a n'] vb2]] eqn:Hc.
  { injection Hv2 as <- _. destruct rs; discriminate Hres2. }
  apply envelope_checks_inr in Hc as Hc'. destruct Hc' as (Ha2' & Hn2' & _).
  rewrite Ha2 in Ha2'. injection Ha2' as <-. rewrite Hn2 in Hn2'. injection Hn2' as <-.
  (* on the real ledger the nonce is still recorded *)
  assert (Hl : validatePaymentLocally p2 r2 e2 s2 = (inr (Invalid RReplayDetected), set_nonces s2
             (filter (fun kv : string * Z => now e2 < kv.2) (seenNonces (fac s2))))).
  { unfold validatePaymentLocally, try_catch. rewrite validateEnvelope_unfold, Hc.
    unfold envelope_rest, bind at 1. rewrite registerNonce_run. cbv zeta.
    rewrite (map_lookup_filter_Some_2 _ _ n vb Hlive); [reflexivity|]. simpl. lia. }
  rewrite (verify_HJson _ _ _ _ _ _ Hl). reflexivity.
Qed.

Lemma replay_rejected_before_expiry_witness :
  fst (verify (HJson (pay0 1120)) req0 (env_at 1060 6)
         (verify_trace [(env_at 1030 6, HJson (pay0 1120), req0)] (snd (verify (HJson (pay0 1120)) req0 (env_at 1000 6) st0))))
  = inr (mkVerificationResult false (Some RReplayDetected)).
Proof.
  refine (replay_rejected_before_expiry (pay0 1120) (pay0 1120) req0 req0
            (env_at 1000 6) (env_at 1060 6) [(env_at 1030 6, HJson (pay0 1120), req0)] st0
            (snd (verify (HJson (pay0 1120)) req0 (env_at 1000 6) st0))
            (auth0 1120) (auth0 1120) "abc" 1120
            _ eq_refl eq_refl eq_refl _ _ eq_refl eq_refl _).
  - vm_compute. reflexivity.
  - constructor; [simpl; lia | constructor].
  - simpl. lia.
  - vm_compute. reflexivity.
Defined.

(** *** Nonce registration *)

(** Claim C6.  A nonce recorded with expiry [t] is recorded again by a
    registration made at any time [now >= t], whatever its new expiry; a
    registration made before [t] is refused. *)
Theorem nonce_reusable_after_expiry (e1 e2 : Env) (s s1 : St) (n : string) (t t2 : Z) :
  registerNonce n t e1 s = (inr true, s1) ->
  (t <= now e2 -> fst (registerNonce n t2 e2 s1) = inr true) /\
  (now e2 < t -> fst (registerNonce n t2 e2 s1) = inr false).
Proof.
  rewrite registerNonce_run. cbv zeta.
  destruct (filter _ (seenNonces (fac s)) !! n) eqn:Hn; [discriminate|].
  intros [= <-]. rewrite registerNonce_run. cbv zeta. simpl seenNonces.
  rewrite map_lookup_filter, lookup_insert_eq. simpl.
  split; intros Hle.
  - rewrite option_guard_False by (simpl; lia). reflexivity.
  - rewrite option_guard_True by (simpl; lia). reflexivity.
Qed.

Lemma nonce_reusable_after_expiry_witness :
  fst (registerNonce "abc" 1200 (env_at 1100 6)
         (snd (registerNonce "abc" 1100 (env_at 1000 6) st0))) = inr true.
Proof.
  refine (proj1 (nonce_reusable_after_expiry (env_at 1000 6) (env_at 1100 6) st0
                   (snd (registerNonce "abc" 1100 (env_at 1000 6) st0)) "abc" 1100 1200 _) _).
  - vm_compute. reflexivity.
  - simpl. lia.
Defined.

(** *** Protocol version *)

(** Claim C8.  A decoded payload whose [x402Version] is not the number 1 is
    answered 'Invalid x402 version', whatever its other fields and the
    requirements, and the facilitator state is left as it was. *)
Theorem verify_version_mismatch (p : PaymentPayload) (r : PaymentRequirements) (e : Env)
    (s : St) :
  js_eqb (x402Version p) (JNum 1) = false ->
  verify (HJson p) r e s = (inr (mkVerificationResult false (Some RInvalidVersion)), s).
Proof.
  intros H. apply (verify_HJson p r e s s (Invalid RInvalidVersion)).
  unfold validatePaymentLocally, try_catch. rewrite validateEnvelope_unfold.
  unfold envelope_checks, js_neqb. rewrite H. reflexivity.
Qed.

Lemma verify_version_mismatch_witness :
  verify (HJson (mkPaymentPayload (JStr "1") (JStr "exact") (JStr "solana-devnet")
                                  (Some (auth0 1120)) None None)) req0 (env_at 1000 6) st0
  = (inr (mkVerificationResult false (Some RInvalidVersion)), st0).
Proof. apply verify_version_mismatch. reflexivity. Defined.

(** *** Network *)

Lemma envelope_checks_network (p : PaymentPayload) (r : PaymentRequirements) (net : string)
    (t : Z) :
  envelope_checks p r net t = inl RNetworkMismatch ->
  js_eqb (network p) (JStr net) = false.
Proof.
  unfold envelope_checks, js_neqb.
  repeat (case_match; try discriminate); intros; simplify_eq;
    match goal with H : negb _ = true |- _ => apply negb_true_iff in H; exact H end.
Qed.

Lemma envelope_rest_not_network (p : PaymentPayload) (auth : Authorization) (n : string)
    (vb : Z) (e : Env) (s s' : St) :
  envelope_rest p auth n vb (validateTransactionStep p) e s
  <> (inr (Invalid RNetworkMismatch), s').
Proof.
  unfold envelope_rest, validateTransactionStep, validateSignedTransaction,
    validateMintDecimals.
  unfold_monad. repeat (case_match; simplify_eq; try congruence).
Qed.

Lemma validate_network_reason (p : PaymentPayload) (r : PaymentRequirements) (e : Env)
    (s s' : St) :
  validatePaymentLocally p r e s = (inr (Invalid RNetworkMismatch), s') ->
  js_eqb (network p) (JStr (networkId (fac s))) = false.
Proof.
  unfold validatePaymentLocally, try_catch. rewrite validateEnvelope_unfold.
  destruct (envelope_checks p r (networkId (fac s)) (now e)) as [rs|[[a n] vb]] eqn:Hc.
  - intros [= -> _]. exact (envelope_checks_network _ _ _ _ Hc).
  - destruct (envelope_rest p a n vb (validateTransactionStep p) e s)
      as [[err|v] s1] eqn:Hr; [unfold ret; congruence|].
    intros [= -> ->]. exfalso. exact (envelope_rest_not_network _ _ _ _ _ _ _ Hr).
Qed.

(** Claim C3, as the code has it.  Once the version and scheme checks pass,
    [verify] answers 'Network mismatch' exactly when the payload's [network]
    differs from the facilitator's configured [networkId]; the requirements'
    [network] is never read. *)
Theorem verify_network_against_config (p : PaymentPayload) (r : PaymentRequirements)
    (e : Env) (s : St) :
  js_eqb (x402Version p) (JNum 1) = true -> js_eqb (scheme p) (req_scheme r) = true ->
  (fst (verify (HJson p) r e s) = inr (mkVerificationResult false (Some RNetworkMismatch))
   <-> js_eqb (network p) (JStr (networkId (fac s))) = false) /\
  (forall net : jsval, verify (HJson p) (with_req_network r net) e s = verify (HJson p) r e s).
Proof.
  intros Hver Hsch. split.
  - destruct (validatePaymentLocally_no_throw p r e s) as (v & s' & Hv).
    rewrite (verify_HJson _ _ _ _ _ _ Hv). simpl. split.
    + intros Hres. destruct v as [|rs]; [discriminate|].
      assert (rs = RNetworkMismatch) as ->.
      { destruct rs; simpl in Hres; try congruence.
        destruct (String.eqb msg ""); congruence. }
      exact (validate_network_reason _ _ _ _ _ Hv).
    + intros Hnet.
      unfold validatePaymentLocally, try_catch in Hv. rewrite validateEnvelope_unfold in Hv.
      unfold envelope_checks, js_neqb in Hv. rewrite Hver, Hsch, Hnet in Hv.
      simpl in Hv. injection Hv as <- _. reflexivity.
  - intros net. destruct r. reflexivity.
Qed.

(** Claim C3 as stated fails: requirements naming another network than the
    payload's still verify when the payload names the configured network,
    and a payload agreeing with the requirements is refused when both name a
    network other than the configured one. *)
Lemma network_from_config_not_requirements :
  js_eqb (network (pay0 1120)) (JStr "solana-mainnet") = false /\
  fst (verify (HJson (pay0 1120)) (with_req_network req0 (JStr "solana-mainnet"))
              (env_at 1000 6) st0) = inr (mkVerificationResult true None) /\
  fst (verify (HJson (mkPaymentPayload (JNum 1) (JStr "exact") (JStr "solana-mainnet")
                                       (Some (auth0 1120)) None None))
              (with_req_network req0 (JStr "solana-mainnet")) (env_at 1000 6) st0)
  = inr (mkVerificationResult false (Some RNetworkMismatch)).
Proof. vm_compute. auto. Qed.

Lemma verify_network_against_config_witness :
  fst (verify (HJson (pay0 1120)) (with_req_network req0 (JStr "solana-mainnet"))
              (env_at 1000 6) st0) = inr (mkVerificationResult true None) /\
  fst (verify (HJson (pay0 1120)) req0 (env_at 1000 6)
              (mkSt (mkFac "solana-mainnet" "M" None ∅) []))
  = inr (mkVerificationResult false (Some RNetworkMismatch)).
Proof.
  split.
  - rewrite (proj2 (verify_network_against_config (pay0 1120) req0 (env_at 1000 6) st0
                      eq_refl eq_refl) (JStr "solana-mainnet")).
    vm_compute. reflexivity.
  - apply (proj1 (verify_network_against_config (pay0 1120) req0 (env_at 1000 6)
                    (mkSt (mkFac "solana-mainnet" "M" None ∅) []) eq_refl eq_refl)).
    reflexivity.
Defined.

(** *** The expiry boundary *)

(** Claim C5, evaluated at [validBefore = now = 1000]: the expiry check
    ([now > validBefore]) lets the payload through, while [cleanupNonces]
    ([expiry <= now]) drops its nonce on the next call of the same second,
    so the same payload verifies twice. *)
Lemma expiry_boundary_accepted_twice :
  fst (verify (HJson (pay0 1000)) req0 (env_at 1000 6) st0)
    = inr (mkVerificationResult true None) /\
  fst (verify (HJson (pay0 1000)) req0 (env_at 1000 6)
              (snd (verify (HJson (pay0 1000)) req0 (env_at 1000 6) st0)))
    = inr (mkVerificationResult true None).
Proof. vm_compute. split; reflexivity. Qed.

(** Claim C9, evaluated at [validBefore = now = 1000] with a mint reporting
    9 decimals: the failed verification registers the nonce, but the second
    call of the same second evicts it and repeats the mint failure instead
    of answering 'Replay detected'; with [validBefore = 1120] the second call
    is a replay. *)
Lemma boundary_failure_not_consumed :
  fst (verify (HJson (pay0 1000)) req0 (env_at 1000 9) st0)
    = inr (mkVerificationResult false
             (Some (RError "Unexpected mint decimals (expected 6 for USDC)"))) /\
  seenNonces (fac (snd (verify (HJson (pay0 1000)) req0 (env_at 1000 9) st0)))
    = {[ "abc" := 1000 ]} /\
  fst (verify (HJson (pay0 1000)) req0 (env_at 1000 9)
              (snd (verify (HJson (pay0 1000)) req0 (env_at 1000 9) st0)))
    = inr (mkVerificationResult false
             (Some (RError "Unexpected mint decimals (expected 6 for USDC)"))) /\
  fst (verify (HJson (pay0 1120)) req0 (env_at 1000 9)
              (snd (verify (HJson (pay0 1120)) req0 (env_at 1000 9) st0)))
    = inr (mkVerificationResult false (Some RReplayDetected)).
Proof. vm_compute. repeat split; reflexivity. Qed.

(** *** Settlement: retries *)

Lemma sendAttempt_fails (e : Env) (s : St) (i : nat) (useMeta : bool) :
  attempt_fails e i useMeta ->
  exists err, sendAttempt i useMeta e s =
    (inr (inl err), if (i <? maxAttempts - 1)%nat
                    then mkSt (fac s) (sleeps s ++ [nth i backoffMs 0]) else s).
Proof.
  unfold attempt_fails, sendAttempt. unfold_monad.
  destruct (sendRawTransaction e i) as [err|sig].
  - intros _. exists err. destruct (i <? maxAttempts - 1)%nat; reflexivity.
  - intros (err & Herr). rewrite Herr. exists err.
    destruct (i <? maxAttempts - 1)%nat; reflexivity.
Qed.

Lemma sendAttempt_succeeds (e : Env) (s : St) (i : nat) (useMeta : bool) (sig : string) :
  sendRawTransaction e i = inr sig -> confirmTransaction e i sig useMeta = inr tt ->
  sendAttempt i useMeta e s = (inr (inr sig), s).
Proof.
  intros Hs Hc. unfold sendAttempt. unfold_monad. rewrite Hs, Hc. reflexivity.
Qed.

Lemma settle_presigned (p : PaymentPayload) (r : PaymentRequirements) (e : Env) (s : St)
    (auth : Authorization) (stx : string) (tx : Transaction) :
  authorization p = Some auth -> signedTransaction p = Some stx -> str_truthy stx = true ->
  transactionFrom e stx = inr tx ->
  settle (HJson p) r e s =
  match sendLoop maxAttempts 0 (confirmWithMeta (transactionMeta p)) None e s with
  | (inr sig, s') =>
    if str_truthy sig
    then (inr (mkSettlementResult true None (Some sig) (Some (networkId (fac s')))), s')
    else (inr (mkSettlementResult false (Some "Failed to execute transfer") None None), s')
  | (inl _, s') =>
    (inr (mkSettlementResult false (Some "Failed to execute transfer") None None), s')
  end.
Proof.
  intros Ha Hs Ht Hf. unfold settle, decodeHeader, executeUSDCTransfer,
    sendTransactionWithRetry.
  unfold_monad. cbv beta iota. rewrite Ha, Hs, Ht. cbv beta iota. rewrite Hf.
  destruct (sendLoop _ _ _ _ e s) as [[err|sig] s']; [reflexivity|].
  destruct (str_truthy sig); reflexivity.
Qed.

(** Claim C4, as the code has it.  On the pre-signed path settlement makes
    at most 3 attempts, sleeping 500 ms after the first failure and 1000 ms
    after the second (none after the third, so the 1500 ms entry of
    [backoffMs] is never used).  When all three fail, [settle] answers a
    failure with no transaction hash and no network; when attempt [k] is the
    first to succeed, it answers that attempt's signature after sleeping
    the first [k] delays. *)
Theorem presigned_retry_budget (p : PaymentPayload) (r : PaymentRequirements) (e : Env)
    (s : St) (auth : Authorization) (stx : string) (tx : Transaction) :
  authorization p = Some auth -> signedTransaction p = Some stx -> str_truthy stx = true ->
  transactionFrom e stx = inr tx ->
  let useMeta := confirmWithMeta (transactionMeta p) in
  ((forall i, (i < 3)%nat -> attempt_fails e i useMeta) ->
   exists res, settle (HJson p) r e s = (inr res, mkSt (fac s) (sleeps s ++ [500; 1000])) /\
     success res = false /\ txHash res = None /\ result_networkId res = None) /\
  (forall (k : nat) (sig : string), (k < 3)%nat ->
   (forall i, (i < k)%nat -> attempt_fails e i useMeta) ->
   sendRawTransaction e k = inr sig -> confirmTransaction e k sig useMeta = inr tt ->
   str_truthy sig = true ->
   settle (HJson p) r e s
   = (inr (mkSettlementResult true None (Some sig) (Some (networkId (fac s)))),
      mkSt (fac s) (sleeps s ++ firstn k [500; 1000]))).
Proof.
  intros Ha Hs Ht Hf useMeta.
  rewrite (settle_presigned p r e s auth stx tx Ha Hs Ht Hf). fold useMeta.
  split.
  - intros Hall. simpl sendLoop. unfold bind.
    destruct (sendAttempt_fails e s 0 useMeta (Hall 0%nat ltac:(lia))) as [e0 ->].
    simpl.
    destruct (sendAttempt_fails e (mkSt (fac s) (sleeps s ++ [500])) 1 useMeta
                (Hall 1%nat ltac:(lia))) as [e1 ->].
    simpl.
    destruct (sendAttempt_fails e (mkSt (fac s) ((sleeps s ++ [500]) ++ [1000])) 2 useMeta
                (Hall 2%nat ltac:(lia))) as [e2 ->].
    simpl. eexists. rewrite <- app_assoc. split; [reflexivity|]. auto.
  - intros k sig Hk Hbefore Hsend Hconf Htr.
    simpl sendLoop. unfold bind.
    destruct k as [|[|[|k]]]; [| | |lia].
    + rewrite (sendAttempt_succeeds e s 0 useMeta sig Hsend Hconf). simpl.
      rewrite Htr, app_nil_r. destruct s; reflexivity.
    + destruct (sendAttempt_fails e s 0 useMeta (Hbefore 0%nat ltac:(lia))) as [e0 ->].
      simpl. rewrite (sendAttempt_succeeds _ _ 1 useMeta sig Hsend Hconf). simpl.
      rewrite Htr. reflexivity.
    + destruct (sendAttempt_fails e s 0 useMeta (Hbefore 0%nat ltac:(lia))) as [e0 ->].
      simpl.
      destruct (sendAttempt_fails e (mkSt (fac s) (sleeps s ++ [500])) 1 useMeta
                  (Hbefore 1%nat ltac:(lia))) as [e1 ->].
      simpl. rewrite (sendAttempt_succeeds _ _ 2 useMeta sig Hsend Hconf). simpl.
      rewrite Htr, <- app_assoc. reflexivity.
Qed.

Lemma presigned_retry_budget_witness :
  exists res, settle (HJson (pay_tx 1100)) req0 (env_at 1000 6) st0
              = (inr res, mkSt fac0 ([] ++ [500; 1000])) /\
     success res = false /\ txHash res = None /\ result_networkId res = None.
Proof.
  exact (proj1 (presigned_retry_budget (pay_tx 1100) req0 (env_at 1000 6) st0 (auth0 1100)
                  "AQAB" (mkTransaction [] true) eq_refl eq_refl eq_refl eq_refl)
               (fun i _ => I)).
Defined.

(** Claim C4 as stated fails: when all three submissions fail, the call
    sleeps 500 ms and 1000 ms only, and [settle]'s error is the fixed
    'Failed to execute transfer', without the last submission error
    ('blockhash not found'). *)
Lemma retry_exhaustion_observed :
  settle (HJson (pay_tx 1100)) req0 (env_at 1000 6) st0
  = (inr (mkSettlementResult false (Some "Failed to execute transfer") None None),
     mkSt fac0 [500; 1000]) /\
  sleeps (snd (settle (HJson (pay_tx 1100)) req0 (env_at 1000 6) st0)) <> [500; 1000; 1500].
Proof. vm_compute. split; [reflexivity|discriminate]. Qed.

(** *** Settlement: frame and independence *)

(** Claim C7.  [settle] leaves [this.seenNonces] exactly as it found it, on
    every path (pre-signed or legacy, success or failure, malformed
    header). *)
Theorem settle_leaves_nonces (h : PaymentHeader) (r : PaymentRequirements) (e : Env) (s : St) :
  seenNonces (fac (snd (settle h r e s))) = seenNonces (fac s).
Proof.
  set (P := fac_only (fun f => seenNonces f = seenNonces (fac s))).
  assert (Hp : preserves_in e P (settle h r)).
  { unfold settle, decodeHeader, executeUSDCTransfer, legacyTransfer,
      sendTransactionWithRetry.
    preserves_walk. }
  exact (Hp s eq_refl).
Qed.

(** Claim C10.  [settle] never reads its requirements argument: under the
    same responses of the world and the same state, two calls differing only
    in the requirements give the same result and the same state. *)
Theorem settle_ignores_requirements (h : PaymentHeader) (r1 r2 : PaymentRequirements)
    (e : Env) (s : St) :
  settle h r1 e s = settle h r2 e s.
Proof. reflexivity. Qed.

(** ** Further properties of the code *)

(** *** Network resolution (utils/solana) *)

Lemma ascii_toLowerCase_idem (c : ascii) :
  ascii_toLowerCase (ascii_toLowerCase c) = ascii_toLowerCase c.
Proof. destruct c as [[] [] [] [] [] [] [] []]; reflexivity. Qed.

Lemma toLowerCase_idem (s : string) : toLowerCase (toLowerCase s) = toLowerCase s.
Proof. induction s as [|c s IH]; simpl; [reflexivity|]. rewrite ascii_toLowerCase_idem, IH. reflexivity. Qed.

Lemma toLowerCase_truthy (s : string) : str_truthy (toLowerCase s) = str_truthy s.
Proof. destruct s; reflexivity. Qed.

Lemma network_eqb_spec (a b : SolanaNetwork) : network_eqb a b = true <-> a = b.
Proof. destruct a, b; split; intros H; try discriminate; reflexivity. Qed.

(** Evaluate the comparisons of two network constants. *)
Ltac eval_network_eqb :=
  repeat match goal with
  | |- context [network_eqb ?a ?b] =>
    match a with Devnet => idtac | Testnet => idtac | MainnetBeta => idtac end;
    match b with Devnet => idtac | Testnet => idtac | MainnetBeta => idtac end;
    let v := eval vm_compute in (network_eqb a b) in change (network_eqb a b) with v
  end.

Lemma return_if_false (x : option string) : return_if false x = None.
Proof. destruct x; reflexivity. Qed.

Lemma return_if_unusable (b : bool) (x : option string) : usable x = false -> return_if b x = None.
Proof. destruct x as [u|]; simpl; [intros ->; destruct b|]; reflexivity. Qed.

Lemma return_if_usable (x : option string) (u : string) :
  x = Some u -> u <> "" -> return_if true x = Some u.
Proof.
  intros -> Hu. unfold return_if, str_truthy. simpl.
  destruct (String.eqb_spec u ""); [congruence|reflexivity].
Qed.

Lemma return_if_truthy (b : bool) (x : option string) (v : string) :
  return_if b x = Some v -> str_truthy v = true.
Proof.
  destruct x as [u|]; simpl; [|discriminate].
  destruct (b && str_truthy u) eqn:H; [|discriminate]. intros [= <-].
  apply andb_true_iff in H. apply H.
Qed.

Lemma first_return_truthy (l : list (option string)) (v : string) :
  Forall (fun o => forall w, o = Some w -> str_truthy w = true) l ->
  first_return l = Some v -> str_truthy v = true.
Proof.
  induction 1 as [|[w|] l Hw Hl IH]; simpl; [discriminate| |exact IH].
  intros [= <-]. apply Hw. reflexivity.
Qed.

Lemma first_return_app (l1 l2 : list (option string)) :
  first_return (l1 ++ l2) =
  match first_return l1 with Some v => Some v | None => first_return l2 end.
Proof. induction l1 as [|[w|] l1 IH]; simpl; auto. Qed.

(** The generic SOLANA_RPC_URL step of [resolveRpcUrlForNetwork] against
    the [rpcUrl] of [resolveSolanaNetwork]. *)
Ltac fallback_tail :=
  match goal with
  | |- context [network_eqb ?n ?dn] =>
    destruct (network_eqb n dn) eqn:Hn;
    [ apply network_eqb_spec in Hn; rewrite <- Hn;
      unfold return_if, or_default; destruct (_ !! "SOLANA_RPC_URL") as [u|];
      [simpl; destruct (str_truthy u); reflexivity | reflexivity]
    | rewrite return_if_false; reflexivity ]
  end.

(** X1.  [normalizeNetwork] ignores letter case: lower-casing its input
    first does not change the network it picks; a missing or empty input
    gives devnet. *)
Theorem normalizeNetwork_case_insensitive (raw : option string) :
  normalizeNetwork (option_map toLowerCase raw) = normalizeNetwork raw /\
  normalizeNetwork None = Devnet /\ normalizeNetwork (Some "") = Devnet.
Proof.
  split; [|split; reflexivity].
  unfold normalizeNetwork, or_default. destruct raw as [s|]; simpl; [|reflexivity].
  rewrite toLowerCase_truthy. destruct (str_truthy s); [|reflexivity].
  rewrite toLowerCase_idem. reflexivity.
Qed.

(** X2.  Every network is recovered from its network id:
    [networkIdToNetwork (networkToId n) = n]. *)
Theorem networkIdToNetwork_networkToId (n : SolanaNetwork) :
  networkIdToNetwork (networkToId n) = n.
Proof. destruct n; reflexivity. Qed.

(** X3.  [resolveRpcUrlForNetwork] returns the URL the config object gives
    for the network whenever it is set and non-empty, whatever the
    environment says. *)
Theorem resolveRpcUrl_config_first (clusterApiUrl : SolanaNetwork -> string)
    (n : SolanaNetwork) (c : NetworkRpcConfig) (env : ProcessEnv) (u : string) :
  rpc_config_field c n = Some u -> u <> "" ->
  resolveRpcUrlForNetwork clusterApiUrl n (Some c) env = u.
Proof.
  intros Hf Hu. unfold resolveRpcUrlForNetwork.
  destruct n; simpl in Hf; eval_network_eqb; rewrite ?return_if_false;
    rewrite (return_if_usable _ u Hf Hu); reflexivity.
Qed.

Lemma resolveRpcUrl_config_first_witness :
  resolveRpcUrlForNetwork (fun _ => "cluster") Devnet
    (Some (mkNetworkRpcConfig (Some "https://dev.example") None None))
    (<["SOLANA_DEVNET_RPC_URL" := "https://env.example"]> ∅) = "https://dev.example".
Proof.
  apply resolveRpcUrl_config_first; [reflexivity | discriminate].
Defined.

(** X4.  Without a usable config entry for the network, a set and
    non-empty network-specific variable (SOLANA_MAINNET_RPC_URL,
    SOLANA_DEVNET_RPC_URL or SOLANA_TESTNET_RPC_URL) is returned, before the
    generic SOLANA_RPC_URL. *)
Theorem resolveRpcUrl_network_env_first (clusterApiUrl : SolanaNetwork -> string)
    (n : SolanaNetwork) (config : option NetworkRpcConfig) (env : ProcessEnv) (u : string) :
  (forall c, config = Some c -> usable (rpc_config_field c n) = false) ->
  env !! network_env_var n = Some u -> u <> "" ->
  resolveRpcUrlForNetwork clusterApiUrl n config env = u.
Proof.
  intros Hc He Hu. unfold resolveRpcUrlForNetwork.
  destruct config as [c|].
  - specialize (Hc c eq_refl). destruct c as [dv mn ts].
    destruct n; simpl in Hc, He; eval_network_eqb;
        cbn [devnetRpcUrl mainnetRpcUrl testnetRpcUrl];
      rewrite ?return_if_false, ?(return_if_unusable true _ Hc);
      rewrite (return_if_usable _ u He Hu); reflexivity.
  - destruct n; simpl in He; eval_network_eqb; rewrite ?return_if_false;
      rewrite (return_if_usable _ u He Hu); reflexivity.
Qed.

Lemma resolveRpcUrl_network_env_first_witness :
  resolveRpcUrlForNetwork (fun _ => "cluster") Testnet None
    (<["SOLANA_RPC_URL" := "https://generic.example"]>
      (<["SOLANA_NETWORK" := "testnet"]>
        (<["SOLANA_TESTNET_RPC_URL" := "https://test.example"]> ∅))) = "https://test.example".
Proof.
  apply resolveRpcUrl_network_env_first; [intros c Hc; discriminate | reflexivity | discriminate].
Defined.

(** X5.  Without a usable config entry or network-specific variable,
    [resolveRpcUrlForNetwork] gives, for the network SOLANA_NETWORK names,
    the same URL as [resolveSolanaNetwork] (SOLANA_RPC_URL, or the public
    cluster URL), and for any other network the public cluster URL:
    SOLANA_RPC_URL is never used for another network. *)
Theorem resolveRpcUrl_fallback (clusterApiUrl : SolanaNetwork -> string)
    (n : SolanaNetwork) (config : option NetworkRpcConfig) (env : ProcessEnv) :
  (forall c, config = Some c -> usable (rpc_config_field c n) = false) ->
  usable (env !! network_env_var n) = false ->
  resolveRpcUrlForNetwork clusterApiUrl n config env =
    if network_eqb n (normalizeNetwork (env !! "SOLANA_NETWORK"))
    then rpcUrl (resolveSolanaNetwork clusterApiUrl env)
    else clusterApiUrl n.
Proof.
  intros Hc He. unfold resolveRpcUrlForNetwork, resolveSolanaNetwork. cbn [rpcUrl].
  set (dn := normalizeNetwork (env !! "SOLANA_NETWORK")).
  rewrite first_return_app.
  destruct config as [c|].
  - specialize (Hc c eq_refl). destruct c as [dv mn ts].
    destruct n; simpl in Hc, He; eval_network_eqb;
      cbn [devnetRpcUrl mainnetRpcUrl testnetRpcUrl];
      rewrite ?return_if_false, ?(return_if_unusable true _ Hc),
        ?(return_if_unusable true _ He); cbn [first_return]; fallback_tail.
  - destruct n; simpl in He; eval_network_eqb;
      rewrite ?return_if_false, ?(return_if_unusable true _ He); cbn [first_return];
      fallback_tail.
Qed.

Lemma resolveRpcUrl_fallback_witness :
  resolveRpcUrlForNetwork (fun n => network_name n) MainnetBeta None
    (<["SOLANA_RPC_URL" := "https://generic.example"]> ∅) = "mainnet-beta".
Proof.
  rewrite (resolveRpcUrl_fallback (fun n => network_name n) MainnetBeta None
             (<["SOLANA_RPC_URL" := "https://generic.example"]> ∅));
    [reflexivity | intros c Hc; discriminate | reflexivity].
Defined.

(** X6.  When every public cluster URL is non-empty, the URL
    [resolveRpcUrlForNetwork] returns is never the empty string: empty
    config entries and empty variables are skipped. *)
Theorem resolveRpcUrl_nonempty (clusterApiUrl : SolanaNetwork -> string)
    (n : SolanaNetwork) (config : option NetworkRpcConfig) (env : ProcessEnv) :
  (forall m, clusterApiUrl m <> "") ->
  resolveRpcUrlForNetwork clusterApiUrl n config env <> "".
Proof.
  intros Hcl. unfold resolveRpcUrlForNetwork.
  destruct (first_return _) as [v|] eqn:Hf; [|apply Hcl].
  apply first_return_truthy in Hf.
  - unfold str_truthy in Hf. destruct (String.eqb_spec v ""); [subst; discriminate|assumption].
  - apply Forall_app. split.
    + destruct config; repeat constructor; intros w; apply return_if_truthy.
    + repeat constructor; intros w; apply return_if_truthy.
Qed.

Lemma resolveRpcUrl_nonempty_witness :
  resolveRpcUrlForNetwork (fun n => network_name n) Devnet None
    (<["SOLANA_RPC_URL" := ""]> ∅) <> "".
Proof.
  apply resolveRpcUrl_nonempty. intros m. destruct m; discriminate.
Defined.

(** *** Construction and replay detection *)

Lemma verify_network_iff (p : PaymentPayload) (r : PaymentRequirements) (e : Env) (s : St) :
  js_eqb (x402Version p) (JNum 1) = true -> js_eqb (scheme p) (req_scheme r) = true ->
  fst (verify (HJson p) r e s) = inr (mkVerificationResult false (Some RNetworkMismatch))
  <-> js_eqb (network p) (JStr (networkId (fac s))) = false.
Proof.
  intros Hver Hsch.
  destruct (validatePaymentLocally_no_throw p r e s) as (v & s' & Hv).
  rewrite (verify_HJson _ _ _ _ _ _ Hv). simpl. split.
  - intros Hres. destruct v as [|rs]; [discriminate|].
    assert (rs = RNetworkMismatch) as ->.
    { destruct rs; simpl in Hres; try congruence.
      destruct (String.eqb msg ""); congruence. }
    exact (validate_network_reason _ _ _ _ _ Hv).
  - intros Hnet.
    unfold validatePaymentLocally, try_catch in Hv. rewrite validateEnvelope_unfold in Hv.
    unfold envelope_checks, js_neqb in Hv. rewrite Hver, Hsch, Hnet in Hv.
    simpl in Hv. injection Hv as <- _. reflexivity.
Qed.

(** X7.  A facilitator built by the constructor from the environment [env]
    advertises one scheme, 'exact' on [networkToId (normalizeNetwork
    env.SOLANA_NETWORK)], which [networkIdToNetwork] maps back to that
    network; it starts with an empty nonce cache, and [verify] refuses a
    payload (of version 1 and the right scheme) with 'Network mismatch'
    exactly when its [network] is not the advertised one. *)
Theorem constructor_advertised_network (clusterApiUrl : SolanaNetwork -> string)
    (env : ProcessEnv) (newConnection newPublicKey : string -> option string)
    (loadKeypairFromEnv : string + option string) (f : Fac) :
  newX402FacilitatorServer clusterApiUrl env newConnection newPublicKey loadKeypairFromEnv
    = inr f ->
  let advertised := networkToId (normalizeNetwork (env !! "SOLANA_NETWORK")) in
  getSupportedSchemes f = [mkSchemeKind "exact" advertised] /\
  networkIdToNetwork advertised = normalizeNetwork (env !! "SOLANA_NETWORK") /\
  seenNonces f = ∅ /\
  (forall (p : PaymentPayload) (r : PaymentRequirements) (e : Env) (sl : list Z),
     js_eqb (x402Version p) (JNum 1) = true -> js_eqb (scheme p) (req_scheme r) = true ->
     fst (verify (HJson p) r e (mkSt f sl))
       = inr (mkVerificationResult false (Some RNetworkMismatch))
     <-> js_eqb (network p) (JStr advertised) = false).
Proof.
  intros Hf advertised. unfold newX402FacilitatorServer in Hf. cbv zeta in Hf.
  destruct (newConnection _); [discriminate|]. destruct (newPublicKey _); [discriminate|].
  injection Hf as <-. simpl. split; [reflexivity|]. split.
  - unfold advertised. destruct (normalizeNetwork _); reflexivity.
  - split; [reflexivity|]. intros p r e sl Hver Hsch.
    exact (verify_network_iff p r e _ Hver Hsch).
Qed.

Lemma constructor_advertised_network_witness :
  getSupportedSchemes (mkFac "solana-mainnet-beta" DEFAULT_USDC_MINT None ∅)
    = [mkSchemeKind "exact" "solana-mainnet-beta"].
Proof.
  exact (proj1 (constructor_advertised_network (fun n => network_name n)
                  (<["SOLANA_NETWORK" := "MainNet"]> ∅) (fun _ => None) (fun _ => None)
                  (inl "no key") (mkFac "solana-mainnet-beta" DEFAULT_USDC_MINT None ∅)
                  eq_refl)).
Defined.

(** 'Replay detected' is answered only for a nonce the cache holds with an
    expiry later than the clock. *)
Lemma validate_replay_live (p : PaymentPayload) (r : PaymentRequirements) (e : Env)
    (s s' : St) :
  validatePaymentLocally p r e s = (inr (Invalid RReplayDetected), s') ->
  exists auth n v, authorization p = Some auth /\ nonce auth = Some n /\
    seenNonces (fac s) !! n = Some v /\ now e < v.
Proof.
  unfold validatePaymentLocally, try_catch. rewrite validateEnvelope_unfold.
  destruct (envelope_checks p r (networkId (fac s)) (now e)) as [rs|[[auth n] vb]] eqn:Hc.
  - intros [= -> _]. unfold envelope_checks in Hc. repeat (case_match; try discriminate).
  - apply envelope_checks_inr in Hc as (Ha & Hn & _).
    unfold envelope_rest, bind at 1. rewrite registerNonce_run. cbv zeta.
    destruct (filter _ (seenNonces (fac s)) !! n) as [v|] eqn:Hl.
    + intros _. apply map_lookup_filter_Some in Hl as [Hl Hlt].
      exists auth, n, v. auto.
    + simpl. unfold validateTransactionStep, validateSignedTransaction,
        validateMintDecimals. unfold_monad.
      intros Hv. exfalso. repeat (case_match; simplify_eq; try congruence).
Qed.

Lemma verify_replay_live (p : PaymentPayload) (r : PaymentRequirements) (e : Env)
    (s s' : St) (res : VerificationResult) :
  verify (HJson p) r e s = (inr res, s') -> invalidReason res = Some RReplayDetected ->
  exists auth n v, authorization p = Some auth /\ nonce auth = Some n /\
    seenNonces (fac s) !! n = Some v /\ now e < v.
Proof.
  intros Hv Hr. apply verify_HJson_inv in Hv as (v & Hv & ->).
  destruct v as [|rs]; [discriminate|].
  assert (rs = RReplayDetected) as ->.
  { destruct rs; simpl in Hr; try congruence. destruct (String.eqb msg ""); congruence. }
  exact (validate_replay_live _ _ _ _ _ Hv).
Qed.

(** X8.  [verify] answers 'Replay detected' only when the payload's nonce
    is already in the nonce cache with an expiry later than the current
    time. *)
Theorem verify_replay_requires_live_nonce (p : PaymentPayload) (r : PaymentRequirements)
    (e : Env) (s : St) :
  fst (verify (HJson p) r e s) = inr (mkVerificationResult false (Some RReplayDetected)) ->
  exists auth n v, authorization p = Some auth /\ nonce auth = Some n /\
    seenNonces (fac s) !! n = Some v /\ now e < v.
Proof.
  destruct (verify (HJson p) r e s) as [res s'] eqn:Hv. simpl. intros ->.
  exact (verify_replay_live _ _ _ _ _ _ Hv eq_refl).
Qed.

Lemma verify_replay_requires_live_nonce_witness :
  exists auth n v, authorization (pay0 1120) = Some auth /\ nonce auth = Some n /\
    seenNonces (fac (snd (verify (HJson (pay0 1120)) req0 (env_at 1000 6) st0))) !! n = Some v /\
    now (env_at 1010 6) < v.
Proof.
  apply (verify_replay_requires_live_nonce (pay0 1120) req0 (env_at 1010 6)
           (snd (verify (HJson (pay0 1120)) req0 (env_at 1000 6) st0))).
  vm_compute. reflexivity.
Defined.

(** X9.  No [verify] call on a freshly constructed facilitator answers
    'Replay detected', whatever the header, requirements and responses of
    the world. *)
Theorem fresh_facilitator_no_replay (clusterApiUrl : SolanaNetwork -> string)
    (env : ProcessEnv) (newConnection newPublicKey : string -> option string)
    (loadKeypairFromEnv : string + option string) (f : Fac)
    (h : PaymentHeader) (r : PaymentRequirements) (e : Env) (sl : list Z) :
  newX402FacilitatorServer clusterApiUrl env newConnection newPublicKey loadKeypairFromEnv
    = inr f ->
  fst (verify h r e (mkSt f sl)) <> inr (mkVerificationResult false (Some RReplayDetected)).
Proof.
  intros Hf. assert (Hempty : seenNonces f = ∅).
  { revert Hf. unfold newX402FacilitatorServer. cbv zeta.
    destruct (newConnection _); [discriminate|]. destruct (newPublicKey _); [discriminate|].
    intros [= <-]. reflexivity. }
  destruct h as [p|msg]; [|discriminate].
  destruct (verify (HJson p) r e (mkSt f sl)) as [res s'] eqn:Hv. simpl. intros ->.
  destruct (verify_replay_live _ _ _ _ _ _ Hv eq_refl) as (auth & n & v & _ & _ & Hl & _).
  simpl in Hl. rewrite Hempty, lookup_empty in Hl. discriminate.
Qed.

Lemma fresh_facilitator_no_replay_witness :
  fst (verify (HJson (pay0 1120)) req0 (env_at 1000 6)
              (mkSt (mkFac "solana-devnet" DEFAULT_USDC_MINT None ∅) []))
  <> inr (mkVerificationResult false (Some RReplayDetected)).
Proof.
  exact (fresh_facilitator_no_replay (fun n => network_name n) ∅ (fun _ => None)
           (fun _ => None) (inl "no key") (mkFac "solana-devnet" DEFAULT_USDC_MINT None ∅)
           (HJson (pay0 1120)) req0 (env_at 1000 6) [] eq_refl).
Defined.

(** *** The checks before the nonce registration *)

Lemma envelope_checks_early (p : PaymentPayload) (r : PaymentRequirements) (net : string)
    (t : Z) (rs : reason) :
  envelope_checks p r net t = inl rs -> early_reason rs = true.
Proof. unfold envelope_checks. intros H. repeat (case_match; simplify_eq); reflexivity. Qed.

Lemma envelope_rest_late (p : PaymentPayload) (auth : Authorization) (n : string) (vb : Z)
    (e : Env) (s s' : St) (rs : reason) :
  envelope_rest p auth n vb (validateTransactionStep p) e s = (inr (Invalid rs), s') ->
  early_reason rs = false.
Proof.
  unfold envelope_rest, validateTransactionStep, validateSignedTransaction,
    validateMintDecimals.
  unfold_monad. intros H. repeat (case_match; simplify_eq; try congruence); reflexivity.
Qed.

(** A [verify] answer with a reason decided before the nonce registration
    comes from [envelope_checks], and the state is left as it was. *)
Lemma verify_early_reason (p : PaymentPayload) (r : PaymentRequirements) (e : Env)
    (s s' : St) (res : VerificationResult) (rs : reason) :
  verify (HJson p) r e s = (inr res, s') -> invalidReason res = Some rs ->
  early_reason rs = true ->
  envelope_checks p r (networkId (fac s)) (now e) = inl rs /\ s' = s.
Proof.
  intros Hv Hr He. apply verify_HJson_inv in Hv as (v & Hv & ->).
  destruct v as [|rs0]; [discriminate|]. simpl in Hr. injection Hr as Hr.
  assert (rs0 = rs) as <-.
  { destruct rs0; simpl in Hr; try (subst; reflexivity).
    destruct (String.eqb msg ""); subst; discriminate He. }
  unfold validatePaymentLocally, try_catch in Hv. rewrite validateEnvelope_unfold in Hv.
  destruct (envelope_checks p r (networkId (fac s)) (now e)) as [rs1|[[auth n] vb]] eqn:Hc.
  - injection Hv as -> ->. auto.
  - destruct (envelope_rest p auth n vb (validateTransactionStep p) e s)
      as [[err|v] s1] eqn:Hrest.
    + injection Hv as <- _. discriminate He.
    + injection Hv as -> _. apply envelope_rest_late in Hrest. congruence.
Qed.

Lemma verify_of_checks (p : PaymentPayload) (r : PaymentRequirements) (e : Env) (s : St)
    (rs : reason) :
  envelope_checks p r (networkId (fac s)) (now e) = inl rs ->
  verify (HJson p) r e s = (inr (mkVerificationResult false (Some rs)), s).
Proof.
  intros Hc.
  assert (Hl : validatePaymentLocally p r e s = (inr (Invalid rs), s)).
  { unfold validatePaymentLocally, try_catch. rewrite validateEnvelope_unfold, Hc.
    reflexivity. }
  rewrite (verify_HJson _ _ _ _ _ _ Hl). simpl.
  pose proof (envelope_checks_early _ _ _ _ _ Hc) as He.
  destruct rs; try discriminate He; reflexivity.
Qed.

(** X10.  A [verify] refused for a reason decided before the nonce step
    (version, scheme, network, missing authorization, amount, recipient,
    asset, expiry, validity window, missing nonce) leaves the whole
    facilitator state, nonce cache included, as it was. *)
Theorem early_rejection_keeps_state (p : PaymentPayload) (r : PaymentRequirements)
    (e : Env) (s s' : St) (res : VerificationResult) (rs : reason) :
  verify (HJson p) r e s = (inr res, s') -> invalidReason res = Some rs ->
  early_reason rs = true -> s' = s.
Proof. intros Hv Hr He. exact (proj2 (verify_early_reason _ _ _ _ _ _ _ Hv Hr He)). Qed.

Lemma early_rejection_keeps_state_witness :
  snd (verify (HJson (pay0 1120))
         (mkPaymentRequirements (JStr "exact") (JStr "solana-devnet") (JNum 1000000)
                                (JStr "P") (JStr "M") None) (env_at 1000 6) st0) = st0.
Proof.
  apply (early_rejection_keeps_state (pay0 1120)
           (mkPaymentRequirements (JStr "exact") (JStr "solana-devnet") (JNum 1000000)
                                  (JStr "P") (JStr "M") None) (env_at 1000 6) st0 _
           (mkVerificationResult false (Some RAmountMismatch)) RAmountMismatch);
    [vm_compute; reflexivity | reflexivity | reflexivity].
Defined.

(** X11.  Amounts are compared with strict equality, without conversion: an
    authorization amount given as a string never matches a numeric
    [maxAmountRequired] (nor a numeric amount a string requirement), even
    for the same quantity; once version, scheme, network and authorization
    are accepted, [verify] answers 'Amount mismatch' and changes nothing. *)
Theorem verify_amount_strict (p : PaymentPayload) (r : PaymentRequirements) (e : Env)
    (s : St) (auth : Authorization) (x : string) (z : Z) :
  js_eqb (x402Version p) (JNum 1) = true -> js_eqb (scheme p) (req_scheme r) = true ->
  js_eqb (network p) (JStr (networkId (fac s))) = true -> authorization p = Some auth ->
  (value auth = JStr x /\ maxAmountRequired r = JNum z \/
   value auth = JNum z /\ maxAmountRequired r = JStr x) ->
  verify (HJson p) r e s = (inr (mkVerificationResult false (Some RAmountMismatch)), s).
Proof.
  intros Hver Hsch Hnet Ha Hty. apply verify_of_checks.
  unfold envelope_checks, js_neqb. rewrite Hver, Hsch, Hnet, Ha. simpl.
  destruct Hty as [[-> ->]|[-> ->]]; reflexivity.
Qed.

Lemma verify_amount_strict_witness :
  verify (HJson (pay0 1120))
    (mkPaymentRequirements (JStr "exact") (JStr "solana-devnet") (JNum 1000000)
                           (JStr "P") (JStr "M") None) (env_at 1000 6) st0
  = (inr (mkVerificationResult false (Some RAmountMismatch)), st0).
Proof.
  apply (verify_amount_strict _ _ _ _ (auth0 1120) "1000000" 1000000);
    [reflexivity | reflexivity | reflexivity | reflexivity | left; split; reflexivity].
Defined.

(** X12.  For a payload that passes the earlier checks and is not expired
    ([validBefore] non-zero and not before now), [verify] answers 'Invalid
    validity window' exactly when the requirements set a non-zero
    [maxTimeoutSeconds] and [validBefore] lies more than
    [maxTimeoutSeconds + 30] seconds ahead; with [maxTimeoutSeconds] absent
    or 0 there is no upper bound. *)
Theorem verify_validity_window (p : PaymentPayload) (r : PaymentRequirements) (e : Env)
    (s : St) (auth : Authorization) (vb : Z) :
  js_eqb (x402Version p) (JNum 1) = true -> js_eqb (scheme p) (req_scheme r) = true ->
  js_eqb (network p) (JStr (networkId (fac s))) = true -> authorization p = Some auth ->
  js_eqb (value auth) (maxAmountRequired r) = true -> js_eqb (to auth) (payTo r) = true ->
  js_eqb (asset auth) (req_asset r) = true ->
  validBefore auth = Some vb -> vb <> 0 -> now e <= vb ->
  fst (verify (HJson p) r e s) = inr (mkVerificationResult false (Some RInvalidValidityWindow))
  <-> exists m, maxTimeoutSeconds r = Some m /\ m <> 0 /\ vb - now e > m + 30.
Proof.
  intros Hver Hsch Hnet Ha Hval Hto Has Hvb Hnz Hle.
  assert (Hc : envelope_checks p r (networkId (fac s)) (now e) =
    if num_truthy (maxTimeoutSeconds r)
       && (vb - now e >? default 0 (maxTimeoutSeconds r) + 30)
    then inl RInvalidValidityWindow
    else match nonce auth with
         | None => inl RMissingNonce
         | Some n => if negb (str_truthy n) then inl RMissingNonce else inr (auth, n, vb)
         end).
  { unfold envelope_checks, js_neqb. rewrite Hver, Hsch, Hnet, Ha, Hval, Hto, Has, Hvb.
    simpl. replace ((vb =? 0) || (now e >? vb)) with false; [reflexivity|].
    symmetry. apply orb_false_iff. split; [apply Z.eqb_neq | rewrite Z.gtb_ltb; apply Z.ltb_ge]; lia. }
  split.
  - destruct (verify (HJson p) r e s) as [res s'] eqn:Hv. simpl. intros ->.
    destruct (verify_early_reason _ _ _ _ _ _ _ Hv eq_refl eq_refl) as [Hc' _].
    rewrite Hc in Hc'.
    destruct (num_truthy (maxTimeoutSeconds r)
              && (vb - now e >? default 0 (maxTimeoutSeconds r) + 30)) eqn:Hw.
    + destruct (maxTimeoutSeconds r) as [m|]; [|discriminate].
      apply andb_true_iff in Hw as [Hm Hgt]. simpl in Hm, Hgt.
      apply negb_true_iff, Z.eqb_neq in Hm. apply Z.gtb_lt in Hgt.
      exists m. split; [reflexivity|]. split; lia.
    + destruct (nonce auth) as [n|]; [destruct (negb (str_truthy n))|]; discriminate.
  - intros (m & Hm & Hm0 & Hgt). rewrite (verify_of_checks p r e s RInvalidValidityWindow).
    + reflexivity.
    + rewrite Hc, Hm. simpl. apply Z.eqb_neq in Hm0. rewrite Hm0.
      replace (vb - now e >? m + 30) with true; [reflexivity|].
      symmetry. apply Z.gtb_lt. lia.
Qed.

Lemma verify_validity_window_witness :
  fst (verify (HJson (pay0 1100))
         (mkPaymentRequirements (JStr "exact") (JStr "solana-devnet") (JStr "1000000")
                                (JStr "P") (JStr "M") (Some 60)) (env_at 1000 6) st0)
  = inr (mkVerificationResult false (Some RInvalidValidityWindow)).
Proof.
  apply (verify_validity_window _ _ _ _ (auth0 1100) 1100);
    try reflexivity; try (simpl; lia).
  exists 60. split; [reflexivity|]. simpl. lia.
Defined.

(** X13.  Once version, scheme, network, authorization, amount, recipient
    and asset are accepted, a payload whose [validBefore] is missing, is 0,
    or lies before the current time is answered 'Payment expired', and the
    state is left as it was. *)
Theorem verify_payment_expired (p : PaymentPayload) (r : PaymentRequirements) (e : Env)
    (s : St) (auth : Authorization) :
  js_eqb (x402Version p) (JNum 1) = true -> js_eqb (scheme p) (req_scheme r) = true ->
  js_eqb (network p) (JStr (networkId (fac s))) = true -> authorization p = Some auth ->
  js_eqb (value auth) (maxAmountRequired r) = true -> js_eqb (to auth) (payTo r) = true ->
  js_eqb (asset auth) (req_asset r) = true ->
  (validBefore auth = None \/ validBefore auth = Some 0 \/
   exists vb, validBefore auth = Some vb /\ vb < now e) ->
  verify (HJson p) r e s = (inr (mkVerificationResult false (Some RPaymentExpired)), s).
Proof.
  intros Hver Hsch Hnet Ha Hval Hto Has Hvb. apply verify_of_checks.
  unfold envelope_checks, js_neqb. rewrite Hver, Hsch, Hnet, Ha, Hval, Hto, Has. simpl.
  destruct Hvb as [->|[->|(vb & -> & Hlt)]]; [reflexivity|reflexivity|].
  replace ((vb =? 0) || (now e >? vb)) with true; [reflexivity|].
  symmetry. apply orb_true_iff. right. apply Z.gtb_lt. lia.
Qed.

Lemma verify_payment_expired_witness :
  verify (HJson (pay0 900)) req0 (env_at 1000 6) st0
  = (inr (mkVerificationResult false (Some RPaymentExpired)), st0).
Proof.
  apply (verify_payment_expired _ _ _ _ (auth0 900)); try reflexivity.
  right. right. exists 900. split; [reflexivity|]. simpl. lia.
Defined.

(** X14.  A payload that passes every check up to the validity window but
    has no nonce, or an empty one, is answered 'Missing nonce'; nothing is
    recorded in the nonce cache and the state is left as it was. *)
Theorem verify_missing_nonce (p : PaymentPayload) (r : PaymentRequirements) (e : Env)
    (s : St) (auth : Authorization) (vb : Z) :
  js_eqb (x402Version p) (JNum 1) = true -> js_eqb (scheme p) (req_scheme r) = true ->
  js_eqb (network p) (JStr (networkId (fac s))) = true -> authorization p = Some auth ->
  js_eqb (value auth) (maxAmountRequired r) = true -> js_eqb (to auth) (payTo r) = true ->
  js_eqb (asset auth) (req_asset r) = true ->
  validBefore auth = Some vb -> vb <> 0 -> now e <= vb ->
  (forall m, maxTimeoutSeconds r = Some m -> m <> 0 -> vb - now e <= m + 30) ->
  (nonce auth = None \/ nonce auth = Some "") ->
  verify (HJson p) r e s = (inr (mkVerificationResult false (Some RMissingNonce)), s).
Proof.
  intros Hver Hsch Hnet Ha Hval Hto Has Hvb Hnz Hle Hwin Hn. apply verify_of_checks.
  unfold envelope_checks, js_neqb. rewrite Hver, Hsch, Hnet, Ha, Hval, Hto, Has, Hvb. simpl.
  replace ((vb =? 0) || (now e >? vb)) with false.
  2:{ symmetry. apply orb_false_iff. split; [apply Z.eqb_neq | rewrite Z.gtb_ltb; apply Z.ltb_ge]; lia. }
  replace (num_truthy (maxTimeoutSeconds r)
           && (vb - now e >? default 0 (maxTimeoutSeconds r) + 30)) with false.
  2:{ destruct (maxTimeoutSeconds r) as [m|]; [|reflexivity]. simpl.
      destruct (Z.eqb_spec m 0); [reflexivity|]. simpl. symmetry.
      rewrite Z.gtb_ltb; apply Z.ltb_ge. specialize (Hwin m eq_refl n). lia. }
  destruct Hn as [->| ->]; reflexivity.
Qed.

Lemma verify_missing_nonce_witness :
  verify (HJson (mkPaymentPayload (JNum 1) (JStr "exact") (JStr "solana-devnet")
                   (Some (mkAuthorization (JStr "A") (JStr "P") (JStr "1000000") (JStr "M")
                                          (Some 1120) (Some ""))) None None))
         req0 (env_at 1000 6) st0
  = (inr (mkVerificationResult false (Some RMissingNonce)), st0).
Proof.
  apply (verify_missing_nonce _ _ _ _
           (mkAuthorization (JStr "A") (JStr "P") (JStr "1000000") (JStr "M")
                            (Some 1120) (Some "")) 1120);
    try reflexivity; try (simpl; lia).
  - intros m Hm. discriminate Hm.
  - right. reflexivity.
Defined.

(** *** The pre-signed transaction *)

(** When the envelope verifies, [verify] on the full payload answers what
    [validateSignedTransaction] finds. *)
Lemma verify_tail_step (p : PaymentPayload) (r : PaymentRequirements) (e : Env) (s s' : St)
    (stx : string) (v : Validation) :
  signedTransaction p = Some stx -> str_truthy stx = true ->
  verify (HJson (with_signedTransaction p None)) r e s
    = (inr (mkVerificationResult true None), s') ->
  validateSignedTransaction p e s' = (inr v, s') ->
  verify (HJson p) r e s = (inr (verification_of v), s').
Proof.
  intros Hst Htr Hv Hvs.
  apply verify_HJson_inv in Hv as (v0 & Hv & Hres).
  destruct v0 as [|rs]; [|discriminate Hres].
  pose proof (validatePaymentLocally_reaches_tail p r e s s' Hv) as Htail.
  apply verify_HJson. rewrite Htail. unfold validateTransactionStep. rewrite Hst, Htr.
  unfold bind. rewrite Hvs. destruct v; reflexivity.
Qed.

(** X15.  When the payload without its transaction verifies, the attached
    transaction (non-empty) is refused: with the deserialisation error's
    message when it does not deserialise ('Local validation failed' for an
    empty message), with 'Invalid transaction signature' when its
    signatures do not verify, and with 'Missing token transfer instruction'
    when no instruction belongs to the token program; the state is the
    one the envelope checks left. *)
Theorem verify_transaction_rejections (p : PaymentPayload) (r : PaymentRequirements)
    (e : Env) (s s' : St) (auth : Authorization) (stx : string) :
  signedTransaction p = Some stx -> str_truthy stx = true -> authorization p = Some auth ->
  verify (HJson (with_signedTransaction p None)) r e s
    = (inr (mkVerificationResult true None), s') ->
  (forall m, transactionFrom e stx = inl m ->
     verify (HJson p) r e s
       = (inr (mkVerificationResult false (Some (reason_or_default (RError m)))), s')) /\
  (forall tx, transactionFrom e stx = inr tx -> sigs_valid tx = false ->
     verify (HJson p) r e s
       = (inr (mkVerificationResult false (Some RInvalidSignature)), s')) /\
  (forall tx, transactionFrom e stx = inr tx -> sigs_valid tx = true ->
     List.find (fun i => String.eqb (programId i) TOKEN_PROGRAM_ID) (instructions tx) = None ->
     verify (HJson p) r e s
       = (inr (mkVerificationResult false (Some RMissingTransferInstruction)), s')).
Proof.
  intros Hst Htr Hauth Hv.
  pose proof (fun v => verify_tail_step p r e s s' stx v Hst Htr Hv) as Hstep.
  unfold validateSignedTransaction in Hstep. rewrite Hst, Htr, Hauth in Hstep.
  simpl in Hstep. unfold try_catch, bind, call in Hstep.
  split; [|split].
  - intros m Hf. apply (Hstep (Invalid (RError m))). rewrite Hf. reflexivity.
  - intros tx Hf Hs. apply (Hstep (Invalid RInvalidSignature)). rewrite Hf, Hs. reflexivity.
  - intros tx Hf Hs Hfind. apply (Hstep (Invalid RMissingTransferInstruction)).
    rewrite Hf, Hs, Hfind. reflexivity.
Qed.

Lemma verify_transaction_rejections_witness :
  verify (HJson (pay_tx 1100)) req0 (env_at 1000 6) st0
  = (inr (mkVerificationResult false (Some RMissingTransferInstruction)),
     snd (verify (HJson (with_signedTransaction (pay_tx 1100) None)) req0 (env_at 1000 6) st0)).
Proof.
  refine (proj2 (proj2 (verify_transaction_rejections (pay_tx 1100) req0 (env_at 1000 6) st0
            (snd (verify (HJson (with_signedTransaction (pay_tx 1100) None)) req0
                    (env_at 1000 6) st0))
            (auth0 1100) "AQAB" eq_refl eq_refl eq_refl _))
            (mkTransaction [] true) eq_refl eq_refl eq_refl).
  vm_compute. reflexivity.
Defined.

(** X16.  For an attached transaction whose first token-program
    instruction is a well-formed transfer of exactly the authorized amount
    (and whose envelope verifies), the outcome is decided by the
    destination, the instruction's second account: when the instruction has
    fewer than two accounts the answer is 'Missing destination account';
    when the account does not exist, 'Destination account not found'; when
    it exists, the payment is accepted exactly when the account's owner is
    [authorization.to] and its mint is [authorization.asset]. *)
Theorem verify_destination_checks (p : PaymentPayload) (r : PaymentRequirements) (e : Env)
    (s s' : St) (auth : Authorization) (stx : string) (tx : Transaction)
    (ix : TransactionInstruction) :
  signedTransaction p = Some stx -> str_truthy stx = true -> authorization p = Some auth ->
  verify (HJson (with_signedTransaction p None)) r e s
    = (inr (mkVerificationResult true None), s') ->
  transactionFrom e stx = inr tx -> sigs_valid tx = true ->
  List.find (fun i => String.eqb (programId i) TOKEN_PROGRAM_ID) (instructions tx) = Some ix ->
  (9 <= List.length (data ix))%nat -> nth 0 (data ix) 0 = 3 ->
  value auth = JStr (bigint_toString (readU64 (subarray_1_9 (data ix)))) ->
  (nth_error (keys ix) 1 = None ->
     verify (HJson p) r e s
       = (inr (mkVerificationResult false (Some RMissingDestination)), s')) /\
  (forall d, nth_error (keys ix) 1 = Some d -> getParsedAccountInfo e (JStr d) = inr None ->
     verify (HJson p) r e s
       = (inr (mkVerificationResult false (Some RDestinationNotFound)), s')) /\
  (forall d info, nth_error (keys ix) 1 = Some d ->
     getParsedAccountInfo e (JStr d) = inr (Some info) ->
     fst (verify (HJson p) r e s) = inr (mkVerificationResult true None) <->
     js_eqb (info_owner info) (to auth) = true /\ js_eqb (info_mint info) (asset auth) = true).
Proof.
  intros Hst Htr Hauth Hv Hfrom Hsig Hfind Hlen Hop Hval.
  pose proof (fun v => verify_tail_step p r e s s' stx v Hst Htr Hv) as Hstep.
  unfold validateSignedTransaction in Hstep. rewrite Hst, Htr, Hauth in Hstep.
  cbv beta iota delta [negb] in Hstep. unfold try_catch, bind, call in Hstep.
  rewrite Hfrom, Hsig, Hfind in Hstep. cbv beta iota delta [negb] in Hstep.
  remember (nth_error (keys ix) 1) as dest eqn:Hdest. clear Hdest.
  assert (Hl : (List.length (data ix) <? 9)%nat = false) by (apply Nat.ltb_ge; lia).
  rewrite Hl, Hop in Hstep. simpl in Hstep. rewrite Hval in Hstep.
  unfold js_neqb at 1 in Hstep. simpl in Hstep. rewrite String.eqb_refl in Hstep.
  simpl in Hstep.
  split; [|split].
  - intros Hk. apply (Hstep (Invalid RMissingDestination)). rewrite Hk. reflexivity.
  - intros d Hk Hacc. apply (Hstep (Invalid RDestinationNotFound)).
    rewrite Hk, Hacc. reflexivity.
  - intros d info Hk Hacc.
    destruct (js_eqb (info_owner info) (to auth)) eqn:Ho;
      [destruct (js_eqb (info_mint info) (asset auth)) eqn:Hm|].
    + rewrite (Hstep Valid); [simpl; tauto|]. rewrite Hk, Hacc.
      unfold js_neqb. rewrite Ho, Hm. reflexivity.
    + rewrite (Hstep (Invalid RDestinationMintMismatch)).
      * simpl. split; [discriminate|]. intros [_ H]. discriminate H.
      * rewrite Hk, Hacc. unfold js_neqb. rewrite Ho, Hm. reflexivity.
    + rewrite (Hstep (Invalid RDestinationOwnerMismatch)).
      * simpl. split; [discriminate|]. intros [H _]. discriminate H.
      * rewrite Hk, Hacc. unfold js_neqb. rewrite Ho. reflexivity.
Qed.

Lemma verify_destination_checks_witness :
  fst (verify (HJson (with_signedTransaction
                        (mkPaymentPayload (JNum 1) (JStr "exact") (JStr "solana-devnet")
                           (Some (mkAuthorization (JStr "A") (JStr "P") (JStr "500000")
                                                  (JStr "M") (Some 1100) (Some "abc")))
                           None None) (Some "AQAB")))
         (mkPaymentRequirements (JStr "exact") (JStr "solana-devnet") (JStr "500000")
                                (JStr "P") (JStr "M") None) (env_tx tx500k) st0)
  = inr (mkVerificationResult true None).
Proof.
  refine (proj2 ((proj2 (proj2 (verify_destination_checks
            (with_signedTransaction
                        (mkPaymentPayload (JNum 1) (JStr "exact") (JStr "solana-devnet")
                           (Some (mkAuthorization (JStr "A") (JStr "P") (JStr "500000")
                                                  (JStr "M") (Some 1100) (Some "abc")))
                           None None) (Some "AQAB"))
            (mkPaymentRequirements (JStr "exact") (JStr "solana-devnet") (JStr "500000")
                                (JStr "P") (JStr "M") None) (env_tx tx500k) st0
            (snd (verify (HJson (with_signedTransaction
                        (mkPaymentPayload (JNum 1) (JStr "exact") (JStr "solana-devnet")
                           (Some (mkAuthorization (JStr "A") (JStr "P") (JStr "500000")
                                                  (JStr "M") (Some 1100) (Some "abc")))
                           None None) None))
                    (mkPaymentRequirements (JStr "exact") (JStr "solana-devnet")
                       (JStr "500000") (JStr "P") (JStr "M") None) (env_tx tx500k) st0))
            (mkAuthorization (JStr "A") (JStr "P") (JStr "500000") (JStr "M")
                             (Some 1100) (Some "abc"))
            "AQAB" tx500k ix500k eq_refl eq_refl eq_refl _ eq_refl eq_refl eq_refl _ eq_refl _)))
            "destination" (mkParsedInfo (JStr "P") (JStr "M") (JNum 6)) eq_refl eq_refl) _).
  - vm_compute. reflexivity.
  - simpl. lia.
  - vm_compute. reflexivity.
  - split; reflexivity.
Defined.

(** *** Reading the transfer amount *)

Lemma le_bytes_length (k : nat) (a : Z) : List.length (le_bytes k a) = k.
Proof. revert a. induction k as [|k IH]; intros a; simpl; [reflexivity|]. rewrite IH. reflexivity. Qed.

Lemma le_value_le_bytes (k : nat) (a : Z) :
  0 <= a -> le_value (le_bytes k a) = a mod 256 ^ Z.of_nat k.
Proof.
  revert a. induction k as [|k IH]; intros a Ha; simpl le_bytes; simpl le_value.
  - rewrite Z.mod_1_r. reflexivity.
  - rewrite IH by (apply Z.div_pos; lia).
    rewrite Nat2Z.inj_succ, Z.pow_succ_r by lia.
    rewrite Z.rem_mul_r; [reflexivity|lia|].
    apply Z.pow_pos_nonneg; lia.
Qed.

Lemma le_bytes_range (k : nat) (a : Z) : Forall (fun b => 0 <= b < 256) (le_bytes k a).
Proof.
  revert a. induction k as [|k IH]; intros a; simpl; constructor; [|apply IH].
  apply Z.mod_pos_bound. lia.
Qed.

(** X17.  [readU64] inverts the 8-byte little-endian encoding: for every
    amount below 2^64, transfer instruction data made of the opcode 3, the
    amount's 8 little-endian bytes (each in [0, 255]) and any further bytes
    is read back as that amount; bytes past the ninth are ignored. *)
Theorem readU64_le_bytes (a : Z) (extra : list Z) :
  0 <= a < 2 ^ 64 ->
  readU64 (subarray_1_9 (3 :: le_bytes 8 a ++ extra)) = Z.to_N a /\
  Forall (fun b => 0 <= b < 256) (le_bytes 8 a).
Proof.
  intros Ha. split; [|apply le_bytes_range].
  unfold readU64, subarray_1_9.
  change (skipn 1 (3 :: le_bytes 8 a ++ extra)) with (le_bytes 8 a ++ extra).
  rewrite List.firstn_app, le_bytes_length, Nat.sub_diag, List.firstn_O, app_nil_r.
  assert (Hf : firstn 8 (le_bytes 8 a) = le_bytes 8 a)
    by (apply List.firstn_all2; rewrite le_bytes_length; lia).
  rewrite !Hf.
  rewrite le_value_le_bytes by lia.
  change (256 ^ Z.of_nat 8) with (2 ^ 64).
  rewrite Z.mod_small by lia. reflexivity.
Qed.

Lemma readU64_le_bytes_witness :
  readU64 (subarray_1_9 (3 :: le_bytes 8 500000 ++ [9; 9])) = 500000%N /\
  Forall (fun b => 0 <= b < 256) (le_bytes 8 500000).
Proof. apply (readU64_le_bytes 500000 [9; 9]). lia. Defined.

(** *** What [verify] changes *)

Lemma preserves_put_nonces_config (e : Env) (c : string * string * option string * list Z)
    (m : gmap string Z) :
  preserves_in e (fun s => config_of s = c) (put_nonces m).
Proof. intros s Hs. exact Hs. Qed.
#[export] Hint Resolve preserves_put_nonces_config : facilitator.

Lemma verify_config (e : Env) (h : PaymentHeader) (r : PaymentRequirements)
    (c : string * string * option string * list Z) :
  preserves_in e (fun s => config_of s = c) (verify h r).
Proof.
  unfold verify, decodeHeader, validatePaymentLocally, validateEnvelope, registerNonce,
    cleanupNonces.
  preserves_walk.
Qed.

(** From the nonce registration on, only the registration touches the
    nonce cache. *)
Lemma envelope_rest_store (p : PaymentPayload) (auth : Authorization) (n : string) (vb : Z)
    (e : Env) (s : St) :
  seenNonces (fac (snd (envelope_rest p auth n vb (validateTransactionStep p) e s)))
  = seenNonces (fac (snd (registerNonce n vb e s))).
Proof.
  unfold envelope_rest. unfold bind at 1.
  destruct (registerNonce n vb e s) as [[err|fresh] s1] eqn:Hr; [reflexivity|]. simpl.
  set (P := fun s2 : St => seenNonces (fac s2) = seenNonces (fac s1)).
  assert (Hp : preserves_in e P
    (if negb fresh then ret (Invalid RReplayDetected) else
     let* _ := validateMintDecimals (asset auth) in
     match transactionMeta p with
     | Some meta =>
       if num_truthy (lastValidBlockHeight meta) then
         let* currentHeight := call getBlockHeight in
         if currentHeight >? default 0 (lastValidBlockHeight meta)
         then ret (Invalid RBlockhashExpired)
         else validateTransactionStep p
       else validateTransactionStep p
     | None => validateTransactionStep p
     end)) by preserves_walk.
  exact (Hp s1 eq_refl).
Qed.

(** X18.  [verify] changes nothing but the nonce cache (the network id,
    mint, wallet and the sleep trace are kept), and the only entry it can
    add or change is the payload's own nonce, recorded with the payload's
    [validBefore]; every other entry after the call was already there with
    the same expiry. *)
Theorem verify_only_touches_nonces (h : PaymentHeader) (r : PaymentRequirements) (e : Env)
    (s : St) :
  config_of (snd (verify h r e s)) = config_of s /\
  (forall k v, seenNonces (fac (snd (verify h r e s))) !! k = Some v ->
     seenNonces (fac s) !! k = Some v \/
     exists p auth, h = HJson p /\ authorization p = Some auth /\ nonce auth = Some k /\
                    validBefore auth = Some v).
Proof.
  split; [exact (verify_config e h r (config_of s) s eq_refl)|].
  intros k v. destruct h as [p|msg]; [|simpl; auto].
  destruct (validatePaymentLocally_no_throw p r e s) as (w & s' & Hv).
  rewrite (verify_HJson _ _ _ _ _ _ Hv). simpl.
  unfold validatePaymentLocally, try_catch in Hv. rewrite validateEnvelope_unfold in Hv.
  destruct (envelope_checks p r (networkId (fac s)) (now e)) as [rs|[[auth n] vb]] eqn:Hc.
  { injection Hv as _ <-. auto. }
  apply envelope_checks_inr in Hc as (Ha & Hn & Hvb).
  assert (Hs' : seenNonces (fac s')
                = seenNonces (fac (snd (envelope_rest p auth n vb (validateTransactionStep p) e s)))).
  { destruct (envelope_rest p auth n vb (validateTransactionStep p) e s)
      as [[err|w'] s1] eqn:Hrest; unfold ret in Hv; injection Hv as _ <-; reflexivity. }
  rewrite Hs', envelope_rest_store, registerNonce_run. cbv zeta.
  destruct (filter _ (seenNonces (fac s)) !! n) eqn:Hl; simpl.
  - intros Hk. apply map_lookup_filter_Some in Hk as [Hk _]. auto.
  - destruct (decide (k = n)) as [->|Hne].
    + rewrite lookup_insert_eq. intros [= <-]. right. exists p, auth. auto.
    + rewrite lookup_insert_ne by congruence. intros Hk.
      apply map_lookup_filter_Some in Hk as [Hk _]. auto.
Qed.

(** X19.  [verify] never evicts a nonce whose expiry is later than the
    current time, nor changes that expiry, whatever the header and
    requirements. *)
Theorem verify_keeps_live_nonce (h : PaymentHeader) (r : PaymentRequirements) (e : Env)
    (s : St) (n : string) (vb : Z) :
  now e < vb -> seenNonces (fac s) !! n = Some vb ->
  seenNonces (fac (snd (verify h r e s))) !! n = Some vb.
Proof. intros Hlt Hs. exact (verify_keeps_live e n vb h r Hlt s Hs). Qed.

Lemma verify_keeps_live_nonce_witness :
  seenNonces (fac (snd (verify (HJson (pay0 900)) req0 (env_at 1000 6)
                          (mkSt (mkFac "solana-devnet" "M" None {[ "old" := 1200 ]}) []))))
    !! "old" = Some 1200.
Proof.
  apply verify_keeps_live_nonce; [simpl; lia | reflexivity].
Defined.

(** *** Headers that do not decode *)

(** X20.  A header that does not decode to JSON is answered, by [verify],
    invalid with 'Verification error: <message>' and, by [settle], failed
    with 'Settlement error: <message>' and no transaction hash or network;
    neither call changes the state. *)
Theorem malformed_header (msg : string) (r : PaymentRequirements) (e : Env) (s : St) :
  verify (HMalformed msg) r e s
    = (inr (mkVerificationResult false (Some (RVerificationError msg))), s) /\
  settle (HMalformed msg) r e s
    = (inr (mkSettlementResult false (Some (String.append "Settlement error: " msg)) None None),
       s).
Proof. split; reflexivity. Qed.

(** *** Settlement paths *)

(** X21.  [settle] on a payload without an authorization answers 'Failed to
    execute transfer' with no transaction hash or network (the 'No
    authorization found' message is not reported), contacts nothing and
    changes nothing. *)
Theorem settle_without_authorization (p : PaymentPayload) (r : PaymentRequirements)
    (e : Env) (s : St) :
  authorization p = None ->
  settle (HJson p) r e s
    = (inr (mkSettlementResult false (Some "Failed to execute transfer") None None), s).
Proof.
  intros Ha. destruct p as [v sc nw au st tm]. simpl in Ha. subst au. reflexivity.
Qed.

Lemma settle_without_authorization_witness :
  settle (HJson (mkPaymentPayload (JNum 1) (JStr "exact") (JStr "solana-devnet") None
                                  (Some "AQAB") None)) req0 (env_tx tx500k) st0
    = (inr (mkSettlementResult false (Some "Failed to execute transfer") None None), st0).
Proof. apply settle_without_authorization. reflexivity. Defined.

(** X22.  Without a non-empty pre-signed transaction, [settle] takes the
    legacy path; a facilitator that has no wallet then answers 'Failed to
    execute transfer' with no transaction hash or network, without
    contacting the world and without changing its state. *)
Theorem settle_legacy_without_wallet (p : PaymentPayload) (r : PaymentRequirements)
    (e : Env) (s : St) (auth : Authorization) :
  authorization p = Some auth ->
  (signedTransaction p = None \/ signedTransaction p = Some "") ->
  agentWallet (fac s) = None ->
  settle (HJson p) r e s
    = (inr (mkSettlementResult false (Some "Failed to execute transfer") None None), s).
Proof.
  intros Ha Hst Hw. destruct p as [v sc nw au st tm]. simpl in Ha, Hst. subst au.
  destruct s as [[ni um aw sn] sl]. simpl in Hw. subst aw.
  destruct Hst as [-> | ->]; reflexivity.
Qed.

Lemma settle_legacy_without_wallet_witness :
  settle (HJson (pay0 1120)) req0 (env_tx tx500k) st0
    = (inr (mkSettlementResult false (Some "Failed to execute transfer") None None), st0).
Proof. apply (settle_legacy_without_wallet _ _ _ _ (auth0 1120)); auto. Defined.







(** *** What [settle] changes, and the shape of its answers *)

Lemma st_sleeps_nil (s : St) : s = mkSt (fac s) (sleeps s ++ firstn 0 [500; 1000]).
Proof. destruct s. simpl. rewrite app_nil_r. reflexivity. Qed.

Lemma sendAttempt_shape (i : nat) (useMeta : bool) (e : Env) (s : St) :
  exists o, sendAttempt i useMeta e s =
    (inr o, match o with
            | inr _ => s
            | inl _ => if (i <? maxAttempts - 1)%nat
                       then mkSt (fac s) (sleeps s ++ [nth i backoffMs 0]) else s
            end).
Proof.
  unfold sendAttempt. unfold_monad.
  destruct (sendRawTransaction e i) as [err|sig].
  - exists (inl err). destruct (i <? maxAttempts - 1)%nat; reflexivity.
  - destruct (confirmTransaction e i sig useMeta) as [err|[]].
    + exists (inl err). destruct (i <? maxAttempts - 1)%nat; reflexivity.
    + exists (inr sig). reflexivity.
Qed.

Lemma sendLoop_frame (useMeta : bool) (e : Env) (s : St) :
  exists k, (k <= 2)%nat /\
  snd (sendLoop maxAttempts 0 useMeta None e s) = mkSt (fac s) (sleeps s ++ firstn k [500; 1000]).
Proof.
  simpl sendLoop. unfold bind.
  destruct (sendAttempt_shape 0 useMeta e s) as [[err0|sig0] ->]; simpl.
  - destruct (sendAttempt_shape 1 useMeta e (mkSt (fac s) (sleeps s ++ [500])))
      as [[err1|sig1] ->]; simpl.
    + destruct (sendAttempt_shape 2 useMeta e (mkSt (fac s) ((sleeps s ++ [500]) ++ [1000])))
        as [[err2|sig2] ->]; simpl;
      exists 2%nat; (split; [lia|]); rewrite <- app_assoc; reflexivity.
    + exists 1%nat. split; [lia|reflexivity].
  - exists 0%nat. split; [lia|apply st_sleeps_nil].
Qed.

Lemma legacyTransfer_state (auth : Authorization) (e : Env) (s : St) :
  snd (legacyTransfer auth e s) = s.
Proof.
  assert (Hp : preserves_in e (fun s1 => s1 = s) (legacyTransfer auth))
    by (unfold legacyTransfer; preserves_walk).
  exact (Hp s eq_refl).
Qed.

Lemma executeUSDCTransfer_frame (p : PaymentPayload) (r : PaymentRequirements) (e : Env)
    (s : St) :
  exists k, (k <= 2)%nat /\
  snd (executeUSDCTransfer p r e s) = mkSt (fac s) (sleeps s ++ firstn k [500; 1000]).
Proof.
  assert (Hs := st_sleeps_nil s).
  unfold executeUSDCTransfer, try_catch. cbv zeta.
  destruct (authorization p) as [auth|]; [|exists 0%nat; split; [lia|exact Hs]].
  assert (Hlegacy : exists k, (k <= 2)%nat /\
    snd (match (let* signature := legacyTransfer auth in ret (Some signature)) e s with
         | (inl err, s') => ret None e s'
         | r0 => r0
         end) = mkSt (fac s) (sleeps s ++ firstn k [500; 1000])).
  { exists 0%nat. split; [lia|]. unfold bind, ret.
    pose proof (legacyTransfer_state auth e s) as Hl.
    destruct (legacyTransfer auth e s) as [[err|sig] s1]; simpl in Hl |- *; subst s1; exact Hs. }
  destruct (signedTransaction p) as [stx|]; [destruct (str_truthy stx)|]; try exact Hlegacy.
  unfold bind, call, ret, sendTransactionWithRetry.
  destruct (transactionFrom e stx) as [err|tx]; [exists 0%nat; split; [lia|exact Hs]|].
  destruct (sendLoop_frame (confirmWithMeta (transactionMeta p)) e s) as (k & Hk & Hl).
  destruct (sendLoop maxAttempts 0 (confirmWithMeta (transactionMeta p)) None e s)
    as [[err|sig] s1]; simpl in Hl |- *; exists k; auto.
Qed.

Lemma settle_HJson_run (p : PaymentPayload) (r : PaymentRequirements) (e : Env) (s : St) :
  settle (HJson p) r e s =
  match executeUSDCTransfer p r e s with
  | (inr (Some h), s1) =>
    if str_truthy h
    then (inr (mkSettlementResult true None (Some h) (Some (networkId (fac s1)))), s1)
    else (inr (mkSettlementResult false (Some "Failed to execute transfer") None None), s1)
  | (inr None, s1) =>
    (inr (mkSettlementResult false (Some "Failed to execute transfer") None None), s1)
  | (inl err, s1) =>
    (inr (mkSettlementResult false (Some (String.append "Settlement error: " err)) None None),
     s1)
  end.
Proof.
  unfold settle, decodeHeader, try_catch, bind, ret, get_fac. cbv beta iota.
  destruct (executeUSDCTransfer p r e s) as [[err|[h|]] s1]; try reflexivity.
  destruct (str_truthy h); reflexivity.
Qed.

(** X25.  Every answer of [settle] has one of two shapes: a success, with
    no error, a non-empty transaction hash and the facilitator's network
    id; or a failure, with an error message and neither a transaction hash
    nor a network id.  [settle] never rejects. *)
Theorem settle_result_shape (h : PaymentHeader) (r : PaymentRequirements) (e : Env)
    (s : St) :
  exists res, fst (settle h r e s) = inr res /\
  ((success res = true /\ error res = None /\
    result_networkId res = Some (networkId (fac s)) /\
    exists sig, txHash res = Some sig /\ sig <> EmptyString) \/
   (success res = false /\ txHash res = None /\ result_networkId res = None /\
    exists msg, error res = Some msg)).
Proof.
  destruct h as [p|msg].
  2:{ eexists. split; [reflexivity|]. right. simpl. eauto 6. }
  rewrite settle_HJson_run.
  destruct (executeUSDCTransfer_frame p r e s) as (k & _ & Hf).
  destruct (executeUSDCTransfer p r e s) as [[err|[h|]] s1]; simpl in Hf; subst s1.
  - eexists. split; [reflexivity|]. right. simpl. eauto 6.
  - destruct (str_truthy h) eqn:Ht.
    + eexists. split; [reflexivity|]. left. simpl. repeat split.
      exists h. split; [reflexivity|]. intros ->. discriminate Ht.
    + eexists. split; [reflexivity|]. right. simpl. eauto 6.
  - eexists. split; [reflexivity|]. right. simpl. eauto 6.
Qed.

(** X26.  [settle] changes nothing but the sleep trace, and appends to it
    only a prefix of the retry delays [500; 1000]: none on the legacy path
    or when the first submission succeeds, at most these two on the
    pre-signed path.  In particular the network id, mint, wallet and nonce
    cache are kept. *)
Theorem settle_frame (h : PaymentHeader) (r : PaymentRequirements) (e : Env) (s : St) :
  exists k, (k <= 2)%nat /\
  snd (settle h r e s) = mkSt (fac s) (sleeps s ++ firstn k [500; 1000]).
Proof.
  destruct h as [p|msg]; [|exists 0%nat; split; [lia|apply st_sleeps_nil]].
  rewrite settle_HJson_run.
  destruct (executeUSDCTransfer_frame p r e s) as (k & Hk & Hf).
  exists k. split; [exact Hk|].
  destruct (executeUSDCTransfer p r e s) as [[err|[h|]] s1]; simpl in Hf |- *;
    [| destruct (str_truthy h) |]; exact Hf.
Qed.

(** *** Refusals after the nonce is recorded *)

Lemma registerNonce_fresh (n : string) (vb : Z) (e : Env) (s : St) :
  (forall v, seenNonces (fac s) !! n = Some v -> v <= now e) ->
  registerNonce n vb e s
  = (inr true, set_nonces s (<[n := vb]> (filter (fun kv : string * Z => now e < kv.2)
                                                   (seenNonces (fac s))))).
Proof.
  intros Hd. rewrite registerNonce_run. cbv zeta.
  destruct (filter _ (seenNonces (fac s)) !! n) eqn:Hl; [|reflexivity].
  apply map_lookup_filter_Some in Hl as [Hl Hlt]. apply Hd in Hl. simpl in Hlt. lia.
Qed.

(** Once the envelope checks pass and the nonce is not live, [verify] runs
    the mint check and the rest of the function on the state where the
    nonce is recorded. *)
Lemma verify_after_nonce (p : PaymentPayload) (r : PaymentRequirements) (e : Env) (s : St)
    (auth : Authorization) (n : string) (vb : Z) (v : Validation) (s2 : St) :
  envelope_checks p r (networkId (fac s)) (now e) = inr (auth, n, vb) ->
  (forall v, seenNonces (fac s) !! n = Some v -> v <= now e) ->
  try_catch
    (let* _ := validateMintDecimals (asset auth) in
     match transactionMeta p with
     | Some meta =>
       if num_truthy (lastValidBlockHeight meta) then
         let* currentHeight := call getBlockHeight in
         if currentHeight >? default 0 (lastValidBlockHeight meta)
         then ret (Invalid RBlockhashExpired)
         else validateTransactionStep p
       else validateTransactionStep p
     | None => validateTransactionStep p
     end)
    (fun err => ret (Invalid (RError err)))
    e (set_nonces s (<[n := vb]> (filter (fun kv : string * Z => now e < kv.2)
                                         (seenNonces (fac s))))) = (inr v, s2) ->
  verify (HJson p) r e s = (inr (verification_of v), s2).
Proof.
  intros Hc Hd Hrest. apply verify_HJson.
  unfold validatePaymentLocally. unfold try_catch at 1.
  rewrite validateEnvelope_unfold, Hc. unfold envelope_rest. unfold bind at 1.
  rewrite (registerNonce_fresh n vb e s Hd). exact Hrest.
Qed.

(** X27.  A payment refused by the mint check (the asset's account is not
    found, or its decimals are not 6) still consumes its nonce: [verify]
    answers the check's error and the nonce stays recorded with the
    payload's [validBefore], so the same payment is later refused as a
    replay until it expires. *)
Theorem verify_mint_failure_consumes_nonce (p : PaymentPayload) (r : PaymentRequirements)
    (e : Env) (s : St) (auth : Authorization) (n : string) (vb : Z) :
  envelope_checks p r (networkId (fac s)) (now e) = inr (auth, n, vb) ->
  (forall v, seenNonces (fac s) !! n = Some v -> v <= now e) ->
  (getParsedAccountInfo e (asset auth) = inr None \/
   exists info, getParsedAccountInfo e (asset auth) = inr (Some info) /\
                js_neqb (info_decimals info) (JNum 6) = true) ->
  exists msg,
    fst (verify (HJson p) r e s) = inr (mkVerificationResult false (Some (RError msg))) /\
    (msg = "Mint account not found" \/ msg = "Unexpected mint decimals (expected 6 for USDC)") /\
    seenNonces (fac (snd (verify (HJson p) r e s))) !! n = Some vb.
Proof.
  intros Hc Hd Hm.
  set (s1 := set_nonces s (<[n := vb]> (filter (fun kv : string * Z => now e < kv.2)
                                                (seenNonces (fac s))))).
  assert (Hs1 : seenNonces (fac s1) !! n = Some vb)
    by (unfold s1; simpl; apply lookup_insert_eq).
  destruct Hm as [Hm | (info & Hm & Hdec)].
  - exists "Mint account not found"%string.
    rewrite (verify_after_nonce p r e s auth n vb (Invalid (RError "Mint account not found")) s1
               Hc Hd); [split; [reflexivity|]; auto|].
    unfold try_catch, validateMintDecimals, bind, call. rewrite Hm. reflexivity.
  - exists "Unexpected mint decimals (expected 6 for USDC)"%string.
    rewrite (verify_after_nonce p r e s auth n vb
               (Invalid (RError "Unexpected mint decimals (expected 6 for USDC)")) s1 Hc Hd);
      [split; [reflexivity|]; auto|].
    unfold try_catch, validateMintDecimals, bind, call. rewrite Hm. cbv beta iota.
    rewrite Hdec. reflexivity.
Qed.

Lemma verify_mint_failure_consumes_nonce_witness :
  exists msg,
    fst (verify (HJson (pay0 1120)) req0 (env_at 1000 9) st0)
      = inr (mkVerificationResult false (Some (RError msg))) /\
    (msg = "Mint account not found" \/ msg = "Unexpected mint decimals (expected 6 for USDC)") /\
    seenNonces (fac (snd (verify (HJson (pay0 1120)) req0 (env_at 1000 9) st0))) !! "abc"
      = Some 1120.
Proof.
  apply (verify_mint_failure_consumes_nonce (pay0 1120) req0 (env_at 1000 9) st0 (auth0 1120)).
  - vm_compute. reflexivity.
  - intros v Hv. vm_compute in Hv. discriminate Hv.
  - right. exists (mkParsedInfo (JStr "P") (JStr "M") (JNum 9)). split; reflexivity.
Defined.

(** X28.  When the payload carries a non-zero [lastValidBlockHeight] and
    the current block height exceeds it, a payment that passes the checks up
    to the mint check is answered 'Blockhash expired' without its attached
    transaction being looked at, and its nonce stays recorded with the
    payload's [validBefore]. *)
Theorem verify_blockhash_expired (p : PaymentPayload) (r : PaymentRequirements)
    (e : Env) (s : St) (auth : Authorization) (n : string) (vb : Z) (info : ParsedInfo)
    (meta : TransactionMeta) (height : Z) :
  envelope_checks p r (networkId (fac s)) (now e) = inr (auth, n, vb) ->
  (forall v, seenNonces (fac s) !! n = Some v -> v <= now e) ->
  getParsedAccountInfo e (asset auth) = inr (Some info) ->
  js_neqb (info_decimals info) (JNum 6) = false ->
  transactionMeta p = Some meta -> num_truthy (lastValidBlockHeight meta) = true ->
  getBlockHeight e = inr height -> default 0 (lastValidBlockHeight meta) < height ->
  fst (verify (HJson p) r e s) = inr (mkVerificationResult false (Some RBlockhashExpired)) /\
  seenNonces (fac (snd (verify (HJson p) r e s))) !! n = Some vb.
Proof.
  intros Hc Hd Hm Hdec Hmeta Hlv Hh Hlt.
  set (s1 := set_nonces s (<[n := vb]> (filter (fun kv : string * Z => now e < kv.2)
                                                (seenNonces (fac s))))).
  rewrite (verify_after_nonce p r e s auth n vb (Invalid RBlockhashExpired) s1 Hc Hd).
  - split; [reflexivity|]. unfold s1. simpl. apply lookup_insert_eq.
  - unfold try_catch, validateMintDecimals, bind, call. rewrite Hm. cbv beta iota.
    rewrite Hdec. unfold ret. cbv beta iota. rewrite Hmeta, Hlv, Hh.
    assert (Hgt : (height >? default 0 (lastValidBlockHeight meta)) = true)
      by (rewrite Z.gtb_ltb; apply Z.ltb_lt; exact Hlt).
    rewrite Hgt. reflexivity.
Qed.

Lemma verify_blockhash_expired_witness :
  fst (verify (HJson (mkPaymentPayload (JNum 1) (JStr "exact") (JStr "solana-devnet")
                        (Some (auth0 1120)) (Some "AQAB")
                        (Some (mkTransactionMeta (Some "bh") (Some 4)))))
              req0 (env_at 1000 6) st0)
    = inr (mkVerificationResult false (Some RBlockhashExpired)) /\
  seenNonces (fac (snd (verify (HJson (mkPaymentPayload (JNum 1) (JStr "exact")
                        (JStr "solana-devnet") (Some (auth0 1120)) (Some "AQAB")
                        (Some (mkTransactionMeta (Some "bh") (Some 4)))))
              req0 (env_at 1000 6) st0))) !! "abc" = Some 1120.
Proof.
  apply (verify_blockhash_expired _ req0 (env_at 1000 6) st0 (auth0 1120) "abc" 1120
           (mkParsedInfo (JStr "P") (JStr "M") (JNum 6)) (mkTransactionMeta (Some "bh") (Some 4)) 5).
  - vm_compute. reflexivity.
  - intros v Hv. vm_compute in Hv. discriminate Hv.
  - reflexivity.
  - reflexivity.
  - reflexivity.
  - reflexivity.
  - reflexivity.
  - simpl. lia.
Defined.

(** X29.  When the payload without its transaction verifies and the
    attached transaction's first token-program instruction has fewer than 9
    bytes of data or does not start with the transfer opcode 3, [verify]
    answers 'Invalid transfer instruction data'; the amount and destination
    are not examined. *)
Theorem verify_invalid_instruction_data (p : PaymentPayload) (r : PaymentRequirements)
    (e : Env) (s s' : St) (auth : Authorization) (stx : string) (tx : Transaction)
    (ix : TransactionInstruction) :
  signedTransaction p = Some stx -> str_truthy stx = true -> authorization p = Some auth ->
  verify (HJson (with_signedTransaction p None)) r e s
    = (inr (mkVerificationResult true None), s') ->
  transactionFrom e stx = inr tx -> sigs_valid tx = true ->
  List.find (fun i => String.eqb (programId i) TOKEN_PROGRAM_ID) (instructions tx) = Some ix ->
  ((List.length (data ix) < 9)%nat \/ nth 0 (data ix) 0 <> 3) ->
  verify (HJson p) r e s
    = (inr (mkVerificationResult false (Some RInvalidInstructionData)), s').
Proof.
  intros Hst Htr Hauth Hv Hf Hs Hfind Hd.
  apply (verify_tail_step p r e s s' stx (Invalid RInvalidInstructionData) Hst Htr Hv).
  assert (Hb : ((List.length (data ix) <? 9)%nat || negb (nth 0 (data ix) 0 =? 3)) = true).
  { destruct Hd as [Hd|Hd].
    - apply orb_true_intro. left. apply Nat.ltb_lt. exact Hd.
    - apply orb_true_intro. right. apply negb_true_iff, Z.eqb_neq. exact Hd. }
  unfold validateSignedTransaction. rewrite Hst, Htr, Hauth. simpl.
  unfold try_catch, bind, call. rewrite Hf, Hs, Hfind. cbv beta iota. rewrite Hb.
  reflexivity.
Qed.

Lemma verify_invalid_instruction_data_witness :
  verify (HJson (pay_tx 1100)) req0
         (env_tx (mkTransaction [mkInstruction TOKEN_PROGRAM_ID ["source"; "destination"]
                                               [3; 32; 161]] true)) st0
  = (inr (mkVerificationResult false (Some RInvalidInstructionData)),
     snd (verify (HJson (with_signedTransaction (pay_tx 1100) None)) req0
                 (env_tx (mkTransaction [mkInstruction TOKEN_PROGRAM_ID
                                           ["source"; "destination"] [3; 32; 161]] true)) st0)).
Proof.
  apply (verify_invalid_instruction_data (pay_tx 1100) req0 _ st0 _ (auth0 1100) "AQAB"
           (mkTransaction [mkInstruction TOKEN_PROGRAM_ID ["source"; "destination"]
                                         [3; 32; 161]] true)
           (mkInstruction TOKEN_PROGRAM_ID ["source"; "destination"] [3; 32; 161]));
    [reflexivity | reflexivity | reflexivity | vm_compute; reflexivity | reflexivity
    | reflexivity | reflexivity | left; simpl; lia].
Defined.

(** X30.  When the pre-signed transaction does not deserialise, [settle]
    answers 'Failed to execute transfer' with no transaction hash or
    network and the state unchanged: nothing is submitted, no retry delay
    is slept, and the legacy transfer is not tried instead, even when the
    facilitator has a wallet. *)
Theorem settle_presigned_undecodable (p : PaymentPayload) (r : PaymentRequirements)
    (e : Env) (s : St) (auth : Authorization) (stx msg : string) :
  authorization p = Some auth -> signedTransaction p = Some stx -> str_truthy stx = true ->
  transactionFrom e stx = inl msg ->
  settle (HJson p) r e s
    = (inr (mkSettlementResult false (Some "Failed to execute transfer") None None), s).
Proof.
  intros Ha Hs Ht Hf. unfold settle, decodeHeader, executeUSDCTransfer.
  unfold_monad. cbv beta iota. rewrite Ha, Hs, Ht. cbv beta iota. rewrite Hf.
  reflexivity.
Qed.

Lemma settle_presigned_undecodable_witness :
  settle (HJson (pay_tx 1100)) req0 (env_legacy 2000000) st_wallet
    = (inr (mkSettlementResult false (Some "Failed to execute transfer") None None), st_wallet).
Proof.
  exact (settle_presigned_undecodable (pay_tx 1100) req0 (env_legacy 2000000) st_wallet
           (auth0 1100) "AQAB" "no transaction" eq_refl eq_refl eq_refl eq_refl).
Defined.
